(** * Clinical assessment and outbreak surveillance: the rule engine

    A shallow embedding of the decision rules of [pcat.py]
    ([MeningitisWorkflow], [DiarrhoeaWorkflow]) and of
    [moh_risk_scraper.py] ([EnhancedMOHScraper._calculate_risk_level],
    [EnhancedMOHScraper._affects_target_age_group], [AgeConstraintManager]),
    with the properties the specification states about them.

    Conventions of the embedding:
    - a Python [int] is a [Z] (unbounded);
    - a Python [str] is a [string], the UTF-8 bytes of the text;
    - a Python [dict] with string keys is a [gmap string _];
    - a Python [float] is an IEEE 754 binary64 number of the Standard
      Library's [SpecFloat] ([prec = 53], [emax = 1024]);
    - a call that may raise returns a [py_result]. *)

From Stdlib Require Import ZArith Bool List Ascii String Lia.
From Stdlib Require Import Floats.SpecFloat.
From Stdlib Require Import DecimalString.
From stdpp Require Import base option gmap strings.

Local Open Scope string_scope.
Local Open Scope Z_scope.

(** ** Python built-ins used by the rules *)

Module Py.

(** [all(l)], [any(l)] and [sum(l)] over a list of [bool]; in [sum] a
    [bool] counts as the [int] 0 or 1. *)
Definition all (l : list bool) : bool := forallb (fun b => b) l.

Definition any (l : list bool) : bool := existsb (fun b => b) l.

Definition sum (l : list bool) : Z :=
  fold_left (fun acc b => acc + Z.b2z b) l 0.

(** [d.get(k, dflt)] *)
Definition get {V} (d : gmap string V) (k : string) (dflt : V) : V :=
  default dflt (d !! k).

(** [c.lower()] on one byte: the 26 ASCII capitals move to their small
    letters, every other byte (so every byte of a multi-byte UTF-8
    sequence) is kept. *)
Definition lower_ascii (c : ascii) : ascii :=
  let n := N_of_ascii c in
  if ((65 <=? n) && (n <=? 90))%N then ascii_of_N (n + 32) else c.

(** [s.lower()].  Python lowers every code point; on ASCII text this is
    [lower_ascii] on every byte.  Outside ASCII only U+212A (KELVIN SIGN)
    lowers to an ASCII letter, [k], which occurs in no disease name of the
    tables below, so membership of [s.lower()] in those tables is decided
    by the ASCII bytes alone. *)
Fixpoint lower (s : string) : string :=
  match s with
  | EmptyString => EmptyString
  | String c s' => String (lower_ascii c) (lower s')
  end.

End Py.

(** ** pcat.py *)

Module Pcat.

(** *** class MeningitisWorkflow *)

Record MeningitisWorkflow := {
  coma : bool;
  stiff_neck : bool;
  bulging_fontanelle : bool;
  lp_clear : bool;
  csf_wbc_raised : bool;
  gram_positive : bool;
  test_done : bool
}.

(** [MeningitisWorkflow()] : the constructor with every argument left at
    its default. *)
Definition MeningitisWorkflow_default : MeningitisWorkflow :=
  {| coma := false; stiff_neck := false; bulging_fontanelle := false;
     lp_clear := true; csf_wbc_raised := false; gram_positive := false;
     test_done := true |}.

Definition DEFINITE : string :=
  "🧠 Definite Meningitis: Treat with Ceftriaxone. Steroids NOT indicated.".
Definition PROBABLE : string :=
  "🧠 Probable Meningitis: Treat with Ceftriaxone. Steroids NOT indicated. Review CSF results.".
Definition POSSIBLE : string :=
  "🧠 Possible Meningitis: Treat with Ceftriaxone. Seek senior review.".
Definition NO_SIGNS : string :=
  "No clear meningitis signs based on provided data.".

(** [MeningitisWorkflow.classify] *)
Definition meningitis_classify (self : MeningitisWorkflow) : string :=
  if coma self || stiff_neck self || bulging_fontanelle self
     || negb (lp_clear self)
  then DEFINITE
  else if csf_wbc_raised self || gram_positive self
  then PROBABLE
  else if test_done self
  then POSSIBLE
  else NO_SIGNS.

(** *** class DiarrhoeaWorkflow *)

Record DiarrhoeaWorkflow := {
  age : Z;
  symptoms : gmap string bool
}.

Definition SHOCK : string :=
  "💧 Shock: IV Ringer's Lactate 20ml/kg over 15 min → Plan C Step 1".
Definition SEVERE_PREFIX : string :=
  "💧 Severe Dehydration: Plan C Step 2 → 70ml/kg IV Ringer's over ".
Definition SOME_DEHYDRATION : string :=
  "💧 Some Dehydration: Plan B → ORS 75ml/kg over 4 hours".
Definition NO_DEHYDRATION : string :=
  "💧 No Dehydration: Plan A → ORS 10ml/kg after each stool, continue feeding".

(** [DiarrhoeaWorkflow.classify] *)
Definition diarrhoea_classify (self : DiarrhoeaWorkflow) : string :=
  let s := symptoms self in
  if Py.all [Py.get s "weak_or_absent_pulse" false;
             Py.get s "cold_hands_temp_gradient" false;
             Py.get s "capillary_refill_gt_3s" false;
             Py.get s "slow_skin_pinch" false]
  then SHOCK
  else if Py.any [Py.get s "sunken_eyes" false;
                  Py.get s "unable_to_drink" false;
                  Py.get s "skin_pinch_gt_2s" false]
  then String.append SEVERE_PREFIX
         (if age self >=? 12 then "2.5hrs" else "4hrs")
  else if Py.sum [Py.get s "sunken_eyes" false;
                  Py.get s "restless_irritable" false;
                  Py.get s "skin_pinch_1_2s" false] >=? 2
  then SOME_DEHYDRATION
  else NO_DEHYDRATION.

(** The value a symptom flag has for the classifier: the entry of the
    dictionary, [False] when the key is missing. *)
Definition flag (self : DiarrhoeaWorkflow) (k : string) : bool :=
  Py.get (symptoms self) k false.

(** The groups of signs, as the specification words them. *)
Definition all_shock_signs (self : DiarrhoeaWorkflow) : Prop :=
  flag self "weak_or_absent_pulse" = true /\
  flag self "cold_hands_temp_gradient" = true /\
  flag self "capillary_refill_gt_3s" = true /\
  flag self "slow_skin_pinch" = true.

Definition any_severe_sign (self : DiarrhoeaWorkflow) : Prop :=
  flag self "sunken_eyes" = true \/
  flag self "unable_to_drink" = true \/
  flag self "skin_pinch_gt_2s" = true.

(** How many of the listed flags are set. *)
Definition count_true (l : list bool) : nat :=
  List.length (List.filter (fun b => b) l).

Definition two_moderate_signs (self : DiarrhoeaWorkflow) : Prop :=
  (2 <= count_true [flag self "sunken_eyes";
                    flag self "restless_irritable";
                    flag self "skin_pinch_1_2s"])%nat.

(** The two texts the Severe Dehydration verdict can take, written out. *)
Definition SEVERE_2_5HRS : string :=
  "💧 Severe Dehydration: Plan C Step 2 → 70ml/kg IV Ringer's over 2.5hrs".
Definition SEVERE_4HRS : string :=
  "💧 Severe Dehydration: Plan C Step 2 → 70ml/kg IV Ringer's over 4hrs".

Fixpoint pairwise_distinct (l : list string) : bool :=
  match l with
  | [] => true
  | x :: l' => forallb (fun y => negb (String.eqb x y)) l' && pairwise_distinct l'
  end.

End Pcat.

(** ** Python numbers: [int / int], [float * int], [float >= int] *)

Module PyNum.

Inductive exn := OverflowError | ZeroDivisionError.

(** The outcome of a call: a value, or a raised exception. *)
Inductive py_result (A : Type) :=
  | Ok (a : A)
  | Raise (e : exn).
Arguments Ok {A} a.
Arguments Raise {A} e.

Definition bind {A B} (r : py_result A) (k : A -> py_result B) : py_result B :=
  match r with
  | Ok a => k a
  | Raise e => Raise e
  end.

Notation "'let*' x ':=' r 'in' k" := (bind r (fun x => k))
  (at level 10, x name, r at level 100, k at level 200).

(** binary64 *)
Definition prec : Z := 53.
Definition emax : Z := 1024.

Definition float := spec_float.

(** An integer as an unrounded binary number [m * 2^0]. *)
Definition exact_of_int (z : Z) : spec_float :=
  match z with
  | Z0 => S754_zero false
  | Zpos p => S754_finite false p 0
  | Zneg p => S754_finite true p 0
  end.

(** A result of magnitude [2^1024] or more is reported as
    [OverflowError] by the conversions out of [int]. *)
Definition finite_or_overflow (x : spec_float) : py_result float :=
  match x with
  | S754_infinity _ => Raise OverflowError
  | _ => Ok x
  end.

(** [a / b] on two [int]s (true division): the exact quotient rounded
    once, to nearest, ties to even; [ZeroDivisionError] when [b = 0],
    [OverflowError] when the rounded quotient is out of range. *)
Definition int_truediv (a b : Z) : py_result float :=
  if b =? 0 then Raise ZeroDivisionError
  else finite_or_overflow (SFdiv prec emax (exact_of_int a) (exact_of_int b)).

(** What [SFdiv] does inside [c / 100000]: it shifts the numerator [c]
    left by [div_shift c] bits, enough for a quotient of 53 bits or more,
    and takes the integer quotient [div_quotient c], which it then rounds. *)
Definition div_shift (c : Z) : Z := Z.max 0 (70 - Zdigits2 c).
Definition div_quotient (c : Z) : Z := (c * 2 ^ div_shift c) / 100000.

(** [float(z)], the conversion applied to the [int] operand of a mixed
    operation: rounded to nearest, [OverflowError] when out of range. *)
Definition float_of_int (z : Z) : py_result float :=
  finite_or_overflow (binary_normalize prec emax z 0 false).

(** [x * y] on two [float]s: IEEE multiplication; an overflow gives an
    infinity, no exception. *)
Definition float_mul (x y : float) : float := SFmul prec emax x y.

(** [x * z] with [x] a [float] and [z] an [int]. *)
Definition float_mul_int (x : float) (z : Z) : py_result float :=
  let* y := float_of_int z in Ok (float_mul x y).

(** [z <= m * 2^e] on integers [z], [m], [e], decided without fractions:
    both sides are scaled by [2^-e] when [e] is negative. *)
Definition scaled_leb (z m e : Z) : bool :=
  z * 2 ^ Z.max 0 (- e) <=? m * 2 ^ Z.max 0 e.

(** [x >= z] with [x] a [float] and [z] an [int]: Python compares the
    two numbers exactly, without rounding [z]. *)
Definition float_ge_int (x : float) (z : Z) : bool :=
  match x with
  | S754_nan => false
  | S754_infinity s => negb s
  | S754_zero _ => z <=? 0
  | S754_finite s m e => scaled_leb z (if s then Zneg m else Zpos m) e
  end.

(** A number that is an [int] or a [float]. *)
Inductive num :=
  | PInt (z : Z)
  | PFloat (x : float).

(** [v >= z] with [z] an [int]. *)
Definition ge_int (v : num) (z : Z) : bool :=
  match v with
  | PInt n => z <=? n
  | PFloat x => float_ge_int x z
  end.

End PyNum.

(** ** moh_risk_scraper.py *)

Module MohRiskScraper.
Import PyNum.

(** One entry of a disease's table, [{'cases_per_100k': _, 'deaths': _}]. *)
Record tier := {
  thr_cases_per_100k : Z;
  thr_deaths : Z
}.

(** The table of one disease, [{'high': _, 'medium': _, 'low': _}]. *)
Record thresholds := {
  high : tier;
  medium : tier;
  low : tier
}.

(** *** class EnhancedMOHScraper (the fields the rules read) *)
Record EnhancedMOHScraper := {
  min_age_months : Z;
  max_age_months : Z;
  risk_thresholds : gmap string thresholds
}.

(** [EnhancedMOHScraper.__init__] *)
Definition EnhancedMOHScraper__init__ : EnhancedMOHScraper :=
  {| min_age_months := 1;
     max_age_months := 60;
     risk_thresholds :=
       <["meningitis" :=
           {| high := {| thr_cases_per_100k := 10; thr_deaths := 2 |};
              medium := {| thr_cases_per_100k := 5; thr_deaths := 1 |};
              low := {| thr_cases_per_100k := 1; thr_deaths := 0 |} |}]>
       (<["diarrhoea" :=
           {| high := {| thr_cases_per_100k := 50; thr_deaths := 5 |};
              medium := {| thr_cases_per_100k := 20; thr_deaths := 2 |};
              low := {| thr_cases_per_100k := 5; thr_deaths := 0 |} |}]>
        ∅) |}.

(** [(cases / 100000) * 100000 if cases > 0 else 0] *)
Definition cases_per_100k (cases : Z) : py_result num :=
  if cases >? 0 then
    let* q := int_truediv cases 100000 in
    let* r := float_mul_int q 100000 in
    Ok (PFloat r)
  else Ok (PInt 0).

(** The two tests and the three outcomes of [_calculate_risk_level], once
    the table of the disease and the case rate are at hand. *)
Definition risk_of_rate (t : thresholds) (rate : num) (deaths : Z) : string :=
  if ge_int rate (thr_cases_per_100k (high t)) || (deaths >=? thr_deaths (high t))
  then "High"
  else if ge_int rate (thr_cases_per_100k (medium t))
          || (deaths >=? thr_deaths (medium t))
  then "Medium"
  else "Low".

(** [EnhancedMOHScraper._calculate_risk_level] *)
Definition _calculate_risk_level (self : EnhancedMOHScraper)
    (disease : string) (cases deaths : Z) : py_result string :=
  match risk_thresholds self !! disease with
  | None => Ok "Medium"
  | Some t =>
      let* rate := cases_per_100k cases in
      Ok (risk_of_rate t rate deaths)
  end.

(** [EnhancedMOHScraper._affects_target_age_group] *)
Definition target_diseases : list string := ["meningitis"; "diarrhoea"].

Definition _affects_target_age_group (self : EnhancedMOHScraper)
    (disease : string) : bool :=
  existsb (String.eqb (Py.lower disease)) target_diseases.

(** *** class AgeConstraintManager *)
Record AgeConstraintManager := {
  mgr_min_age_months : Z;
  mgr_max_age_months : Z
}.

(** [AgeConstraintManager.__init__], with its default arguments when
    called as [AgeConstraintManager()]. *)
Definition AgeConstraintManager__init__ (min_age max_age : Z)
  : AgeConstraintManager :=
  {| mgr_min_age_months := min_age; mgr_max_age_months := max_age |}.

Definition AgeConstraintManager_default : AgeConstraintManager :=
  AgeConstraintManager__init__ 1 60.

(** [AgeConstraintManager.set_age_range]: the returned flag and the
    object after the call. *)
Definition set_age_range (self : AgeConstraintManager)
    (min_months max_months : Z) : bool * AgeConstraintManager :=
  if (min_months <? 0) || (max_months <? min_months) || (max_months >? 120)
  then (false, self)
  else (true, {| mgr_min_age_months := min_months;
                 mgr_max_age_months := max_months |}).

(** [AgeConstraintManager.get_age_range] *)
Definition get_age_range (self : AgeConstraintManager) : Z * Z :=
  (mgr_min_age_months self, mgr_max_age_months self).

(** [AgeConstraintManager.is_age_in_range] *)
Definition is_age_in_range (self : AgeConstraintManager) (age_months : Z)
  : bool :=
  (mgr_min_age_months self <=? age_months)
  && (age_months <=? mgr_max_age_months self).

(** *** The specification's reading of the outbreak classifier *)

(** The tiers in the order they are tried, each with its name. *)
Definition tiers_high_to_low (t : thresholds) : list (string * tier) :=
  [("High", high t); ("Medium", medium t); ("Low", low t)].

(** A tier is met when the rate reaches its case threshold or the deaths
    reach its death threshold. *)
Definition tier_met (rate : num) (deaths : Z) (x : tier) : bool :=
  ge_int rate (thr_cases_per_100k x) || (thr_deaths x <=? deaths).

(** The first tier met, [Low] when none is. *)
Definition first_tier_met (t : thresholds) (rate : num) (deaths : Z) : string :=
  match List.find (fun nt => tier_met rate deaths (snd nt)) (tiers_high_to_low t) with
  | Some (name, _) => name
  | None => "Low"
  end.

(** The variant of the classifier in which the case rate is the raw case
    count. *)
Definition calculate_risk_level_raw_count (self : EnhancedMOHScraper)
    (disease : string) (cases deaths : Z) : string :=
  match risk_thresholds self !! disease with
  | None => "Medium"
  | Some t => risk_of_rate t (PInt cases) deaths
  end.

End MohRiskScraper.

(** ** pcat.py: the symptom dictionaries and the order of the verdicts *)

Module PcatMore.
Import Pcat.

(** [MeningitisWorkflow.get_symptoms_dict] *)
Definition meningitis_get_symptoms_dict (self : MeningitisWorkflow)
  : gmap string bool :=
  <["coma" := coma self]>
  (<["stiff_neck" := stiff_neck self]>
  (<["bulging_fontanelle" := bulging_fontanelle self]>
  (<["lp_clear" := lp_clear self]>
  (<["csf_wbc_raised" := csf_wbc_raised self]>
  (<["gram_positive" := gram_positive self]>
  (<["test_done" := test_done self]> ∅)))))).

(** The parameters of [MeningitisWorkflow.__init__]. *)
Definition meningitis_parameters : list string :=
  ["coma"; "stiff_neck"; "bulging_fontanelle"; "lp_clear";
   "csf_wbc_raised"; "gram_positive"; "test_done"].

(** [MeningitisWorkflow.__init__] called with keyword arguments only,
    given as the dictionary a double-star call unpacks.  A parameter left out takes its default
    ([True] for [lp_clear] and [test_done], [False] for the others); a
    keyword that is not a parameter is a [TypeError], here [None]. *)
Definition MeningitisWorkflow__init__ (kwargs : gmap string bool)
  : option MeningitisWorkflow :=
  if forallb (fun k => existsb (String.eqb k) meningitis_parameters)
       (map fst (map_to_list kwargs))
  then Some {| coma := Py.get kwargs "coma" false;
               stiff_neck := Py.get kwargs "stiff_neck" false;
               bulging_fontanelle := Py.get kwargs "bulging_fontanelle" false;
               lp_clear := Py.get kwargs "lp_clear" true;
               csf_wbc_raised := Py.get kwargs "csf_wbc_raised" false;
               gram_positive := Py.get kwargs "gram_positive" false;
               test_done := Py.get kwargs "test_done" true |}
  else None.

(** [DiarrhoeaWorkflow.get_symptoms_dict] *)
Definition diarrhoea_get_symptoms_dict (self : DiarrhoeaWorkflow)
  : gmap string bool :=
  symptoms self.

(** The nine keys [DiarrhoeaWorkflow.classify] reads. *)
Definition diarrhoea_keys : list string :=
  ["weak_or_absent_pulse"; "cold_hands_temp_gradient";
   "capillary_refill_gt_3s"; "slow_skin_pinch";
   "sunken_eyes"; "unable_to_drink"; "skin_pinch_gt_2s";
   "restless_irritable"; "skin_pinch_1_2s"].

(** [symptoms_collected] of [classify_and_save]:
    [{k: symptom_vars.get(k, False) for k in <the nine keys>}]. *)
Definition symptoms_collected (symptom_vars : gmap string bool)
  : gmap string bool :=
  fold_left (fun d k => <[k := Py.get symptom_vars k false]> d)
    diarrhoea_keys ∅.

(** How grave a verdict of the meningitis classifier is: 3 for Definite
    down to 0 for the text that reports no sign. *)
Definition meningitis_severity (verdict : string) : nat :=
  if String.eqb verdict DEFINITE then 3
  else if String.eqb verdict PROBABLE then 2
  else if String.eqb verdict POSSIBLE then 1
  else 0.

(** How grave a verdict of the diarrhoea classifier is: 3 for Shock, 2
    for Severe Dehydration (either duration), 1 for Some Dehydration, 0
    for No Dehydration. *)
Definition diarrhoea_severity (verdict : string) : nat :=
  if String.eqb verdict SHOCK then 3
  else if String.eqb verdict SEVERE_2_5HRS || String.eqb verdict SEVERE_4HRS then 2
  else if String.eqb verdict SOME_DEHYDRATION then 1
  else 0.

(** A workflow shows at least the signs of another: every sign of the
    second is a sign of the first ([lp_clear] counts as a sign when
    unset). *)
Definition meningitis_signs_le (w w' : MeningitisWorkflow) : Prop :=
  (coma w = true -> coma w' = true) /\
  (stiff_neck w = true -> stiff_neck w' = true) /\
  (bulging_fontanelle w = true -> bulging_fontanelle w' = true) /\
  (lp_clear w = false -> lp_clear w' = false) /\
  (csf_wbc_raised w = true -> csf_wbc_raised w' = true) /\
  (gram_positive w = true -> gram_positive w' = true) /\
  (test_done w = true -> test_done w' = true).

Definition diarrhoea_signs_le (w w' : DiarrhoeaWorkflow) : Prop :=
  forall k : string, flag w k = true -> flag w' k = true.

End PcatMore.

(** ** Python dictionaries with values of mixed type *)

Module PyDict.

(** A value of an outbreak or alert dictionary: a [str] or an [int]. *)
Inductive value :=
  | VStr (s : string)
  | VInt (z : Z).

Inductive exc :=
  | KeyError (key : string)
  | AttributeError
  | TypeError.

(** The outcome of a statement: a value, or a raised exception that ends
    the enclosing call. *)
Inductive outcome (A : Type) :=
  | Return (a : A)
  | Raised (e : exc).
Arguments Return {A} a.
Arguments Raised {A} e.

#[export] Instance outcome_ret : MRet outcome := fun A a => Return a.
#[export] Instance outcome_bind : MBind outcome :=
  fun A B k r => match r with Return a => k a | Raised e => Raised e end.

(** [d[k]] *)
Definition getitem {V} (d : gmap string V) (k : string) : outcome V :=
  match d !! k with
  | Some v => Return v
  | None => Raised (KeyError k)
  end.

(** [v.lower()]: only a [str] has the method. *)
Definition str_lower (v : value) : outcome string :=
  match v with
  | VStr s => Return (Py.lower s)
  | VInt _ => Raised AttributeError
  end.

(** [v >= n] with [n] an [int]: a [str] on the left is a [TypeError]. *)
Definition value_ge (v : value) (n : Z) : outcome bool :=
  match v with
  | VInt z => Return (n <=? z)
  | VStr _ => Raised TypeError
  end.

(** [str(z)] for an [int]: its decimal digits, with a minus sign when
    negative. *)
Definition str_of_int (z : Z) : string :=
  NilEmpty.string_of_int (Z.to_int z).

(** A value inside an f-string, [f"{v}"]. *)
Definition format (v : value) : string :=
  match v with
  | VStr s => s
  | VInt z => str_of_int z
  end.

(** [a or b] on two comparisons: the second is evaluated only when the
    first is false. *)
Definition or_else (a b : outcome bool) : outcome bool :=
  match a with
  | Return true => Return true
  | Return false => b
  | Raised e => Raised e
  end.

End PyDict.

(** ** pcat.py: class AlertSystem; integration_example.py: class
    EnhancedAlertSystem *)

Module Alerts.
Import PyDict MohRiskScraper.

(** The keys of the two built-in tables are ASCII names without the
    letter [k], so [Py.lower] decides their lookups as [str.lower] does. *)

(** An outbreak as the scrapers, the mock generator and the database
    rows give it, and an alert as the checks build it: dictionaries. *)
Abbreviation outbreak := (gmap string value).
Abbreviation alert := (gmap string value).

(** One entry of a table of alert thresholds, [{'cases': _, 'deaths': _}]. *)
Record alert_threshold := {
  alert_cases : Z;
  alert_deaths : Z
}.

(** *** class AlertSystem *)
Record AlertSystem := {
  alert_thresholds : gmap string alert_threshold
}.

(** [AlertSystem.__init__] *)
Definition AlertSystem__init__ : AlertSystem :=
  {| alert_thresholds :=
       <["meningitis" := {| alert_cases := 10; alert_deaths := 1 |}]>
       (<["cholera" := {| alert_cases := 20; alert_deaths := 2 |}]>
       (<["dengue" := {| alert_cases := 15; alert_deaths := 1 |}]> ∅)) |}.

(** The body of the loop of [AlertSystem.check_alerts]: the alerts one
    outbreak adds, none or one. *)
Definition check_outbreak (self : AlertSystem) (o : outbreak)
  : outcome (list alert) :=
  name ← getitem o "disease_name";
  disease ← str_lower name;
  let cases := Py.get o "cases" (VInt 0) in
  let deaths := Py.get o "deaths" (VInt 0) in
  match alert_thresholds self !! disease with
  | None => Return []
  | Some thresholds =>
      hit ← or_else (value_ge cases (alert_cases thresholds))
                    (value_ge deaths (alert_deaths thresholds));
      if hit : bool then
        a_disease ← getitem o "disease_name";
        a_location ← getitem o "location";
        a_severity ← getitem o "severity_level";
        m_disease ← getitem o "disease_name";
        m_location ← getitem o "location";
        Return
          [ <["alert_type" := VStr "Disease Outbreak"]>
            (<["disease" := a_disease]>
            (<["location" := a_location]>
            (<["severity" := a_severity]>
            (<["message" :=
                 VStr ("ALERT: " +:+ format m_disease +:+ " outbreak in "
                       +:+ format m_location +:+ " - " +:+ format cases
                       +:+ " cases, " +:+ format deaths
                       +:+ " deaths reported")]> ∅)))) ]
      else Return []
  end.

(** [AlertSystem.check_alerts] *)
Fixpoint check_alerts (self : AlertSystem) (outbreaks : list outbreak)
  : outcome (list alert) :=
  match outbreaks with
  | [] => Return []
  | o :: rest =>
      added ← check_outbreak self o;
      alerts ← check_alerts self rest;
      Return (added ++ alerts)%list
  end.

(** An outbreak reaches a threshold entry: its case count or its death
    count, an absent count standing for 0, is an [int] at or above the
    entry's. *)
Definition reaches (o : outbreak) (t : alert_threshold) : Prop :=
  (exists c : Z, Py.get o "cases" (VInt 0) = VInt c /\ alert_cases t <= c) \/
  (exists d : Z, Py.get o "deaths" (VInt 0) = VInt d /\ alert_deaths t <= d).

(** An outbreak of the shape the scrapers, the mock generator and the
    database rows give: the name is a [str], the location and the severity
    are there, and the counts, where given, are [int]s. *)
Definition well_formed (o : outbreak) : Prop :=
  (exists s : string, o !! "disease_name" = Some (VStr s)) /\
  is_Some (o !! "location") /\ is_Some (o !! "severity_level") /\
  (exists c : Z, Py.get o "cases" (VInt 0) = VInt c) /\
  (exists d : Z, Py.get o "deaths" (VInt 0) = VInt d).

(** Whether an outbreak is due an alert under a table: its lowered name
    is a key and its cases or deaths reach the entry. *)
Definition due (table : gmap string alert_threshold) (o : outbreak) : bool :=
  match o !! "disease_name" with
  | Some (VStr s) =>
      match table !! Py.lower s with
      | Some t =>
          match Py.get o "cases" (VInt 0), Py.get o "deaths" (VInt 0) with
          | VInt c, VInt d => (alert_cases t <=? c) || (alert_deaths t <=? d)
          | _, _ => false
          end
      | None => false
      end
  | _ => false
  end.

(** The counts of an outbreak are 0 or absent, as in every outbreak
    [scrape_who_outbreaks] and [scrape_cdc_outbreaks] build. *)
Definition no_counts (o : outbreak) : Prop :=
  Py.get o "cases" (VInt 0) = VInt 0 /\ Py.get o "deaths" (VInt 0) = VInt 0.

(** *** class EnhancedAlertSystem *)
Record EnhancedAlertSystem := {
  age_manager : AgeConstraintManager;
  age_specific_thresholds : gmap string (gmap string alert_threshold)
}.

(** [EnhancedAlertSystem.__init__] *)
Definition EnhancedAlertSystem__init__ : EnhancedAlertSystem :=
  {| age_manager := AgeConstraintManager_default;
     age_specific_thresholds :=
       <["meningitis" :=
           <["1-12_months" := {| alert_cases := 5; alert_deaths := 1 |}]>
           (<["13-60_months" := {| alert_cases := 8; alert_deaths := 1 |}]> ∅)]>
       (<["diarrhoea" :=
           <["1-12_months" := {| alert_cases := 15; alert_deaths := 2 |}]>
           (<["13-60_months" := {| alert_cases := 20; alert_deaths := 2 |}]> ∅)]>
        ∅) |}.

(** The body of the loop of
    [EnhancedAlertSystem.check_age_specific_alerts], with the pair read
    from the age manager before the loop. *)
Definition check_age_specific_outbreak (self : EnhancedAlertSystem)
    (min_age max_age : Z) (o : outbreak) : outcome (list alert) :=
  name ← getitem o "disease_name";
  disease ← str_lower name;
  let cases := Py.get o "cases" (VInt 0) in
  let deaths := Py.get o "deaths" (VInt 0) in
  match age_specific_thresholds self !! disease with
  | None => Return []
  | Some by_group =>
      let age_group :=
        if min_age <=? 12 then "1-12_months" else "13-60_months" in
      thresholds ← getitem by_group age_group;
      hit ← or_else (value_ge cases (alert_cases thresholds))
                    (value_ge deaths (alert_deaths thresholds));
      if hit : bool then
        a_disease ← getitem o "disease_name";
        a_location ← getitem o "location";
        a_severity ← getitem o "severity_level";
        m_disease ← getitem o "disease_name";
        m_location ← getitem o "location";
        Return
          [ <["alert_type" := VStr "Age-Specific Disease Outbreak"]>
            (<["disease" := a_disease]>
            (<["location" := a_location]>
            (<["severity" := a_severity]>
            (<["age_group" :=
                 VStr (str_of_int min_age +:+ "-" +:+ str_of_int max_age
                       +:+ " months")]>
            (<["message" :=
                 VStr ("ALERT: " +:+ format m_disease +:+ " outbreak in "
                       +:+ format m_location +:+ " - " +:+ format cases
                       +:+ " cases, " +:+ format deaths
                       +:+ " deaths (Age group: " +:+ str_of_int min_age
                       +:+ "-" +:+ str_of_int max_age +:+ " months)")]>
             ∅))))) ]
      else Return []
  end.

(** The loop of [EnhancedAlertSystem.check_age_specific_alerts]. *)
Fixpoint check_age_specific_loop (self : EnhancedAlertSystem)
    (min_age max_age : Z) (outbreaks : list outbreak)
  : outcome (list alert) :=
  match outbreaks with
  | [] => Return []
  | o :: rest =>
      added ← check_age_specific_outbreak self min_age max_age o;
      alerts ← check_age_specific_loop self min_age max_age rest;
      Return (added ++ alerts)%list
  end.

(** [EnhancedAlertSystem.check_age_specific_alerts] *)
Definition check_age_specific_alerts (self : EnhancedAlertSystem)
    (outbreaks : list outbreak) : outcome (list alert) :=
  let '(min_age, max_age) := get_age_range (age_manager self) in
  check_age_specific_loop self min_age max_age outbreaks.

(** The thresholds in force for a lowest age: for each disease, the
    entry of the age group [check_age_specific_alerts] picks, which depends
    on [min_age] alone. *)
Definition age_group_table (self : EnhancedAlertSystem) (min_age : Z)
  : gmap string alert_threshold :=
  omap (fun by_group : gmap string alert_threshold =>
          by_group !! (if min_age <=? 12 then "1-12_months" else "13-60_months"))
       (age_specific_thresholds self).

(** An [EnhancedAlertSystem] as its constructor builds it, with its age
    manager since brought to another state. *)
Definition EnhancedAlertSystem_with (mgr : AgeConstraintManager)
  : EnhancedAlertSystem :=
  {| age_manager := mgr;
     age_specific_thresholds :=
       age_specific_thresholds EnhancedAlertSystem__init__ |}.

End Alerts.

(** ** moh_risk_scraper.py: risk areas and the age filter *)

Module RiskAreas.
Import PyNum MohRiskScraper.

(** [@dataclass class RiskArea].  [date_reported] is a [datetime], which
    the rules carry and never inspect: it is kept as its POSIX timestamp
    in microseconds. *)
Record RiskArea := {
  location : string;
  disease : string;
  risk_level : string;
  cases : Z;
  deaths : Z;
  population_at_risk : Z;
  geographical_coordinates : option (float * float);
  date_reported : Z;
  source_url : string;
  additional_info : string
}.

(** [EnhancedMOHScraper._filter_by_age_constraints]: the loop keeps, in
    order, the areas whose disease passes [_affects_target_age_group]. *)
Fixpoint _filter_by_age_constraints (self : EnhancedMOHScraper)
    (risk_areas : list RiskArea) : list RiskArea :=
  match risk_areas with
  | [] => []
  | area :: rest =>
      if _affects_target_age_group self (disease area)
      then area :: _filter_by_age_constraints self rest
      else _filter_by_age_constraints self rest
  end.

(** A run of [set_age_range] calls on one manager, each with its pair of
    arguments; the returned flags are dropped. *)
Definition set_age_range_all (self : AgeConstraintManager)
    (calls : list (Z * Z)) : AgeConstraintManager :=
  fold_left (fun mgr c => snd (set_age_range mgr (fst c) (snd c))) calls self.

(** The range a manager holds is one [set_age_range] accepts. *)
Definition valid_range (self : AgeConstraintManager) : Prop :=
  0 <= mgr_min_age_months self <= mgr_max_age_months self /\
  mgr_max_age_months self <= 120.

(** Whether [set_age_range] accepts a pair of arguments. *)
Definition accepted (c : Z * Z) : bool :=
  (0 <=? fst c) && (fst c <=? snd c) && (snd c <=? 120).

(** The order of the risk levels: High above Medium above Low. *)
Definition risk_rank (level : string) : nat :=
  if String.eqb level "High" then 2
  else if String.eqb level "Medium" then 1
  else 0.

End RiskAreas.

(** * Properties *)

(** ** pcat.py: the two clinical classifiers *)

Section PcatProperties.
Import Pcat.

(** The verdict texts are pairwise different, so a verdict identifies its
    tier. *)
Lemma meningitis_verdicts_distinct :
  pairwise_distinct [DEFINITE; PROBABLE; POSSIBLE; NO_SIGNS] = true.
Proof. vm_compute. reflexivity. Qed.

Lemma diarrhoea_verdicts_distinct :
  pairwise_distinct
    [SHOCK; SEVERE_2_5HRS; SEVERE_4HRS; SOME_DEHYDRATION; NO_DEHYDRATION] = true.
Proof. vm_compute. reflexivity. Qed.

Lemma severe_text (a : Z) :
  String.append SEVERE_PREFIX (if a >=? 12 then "2.5hrs" else "4hrs")
  = if a >=? 12 then SEVERE_2_5HRS else SEVERE_4HRS.
Proof. destruct (a >=? 12); reflexivity. Qed.

Lemma eqb_false_neq (x y : string) : String.eqb x y = false -> x <> y.
Proof. intros H E. apply String.eqb_eq in E. congruence. Qed.

(** Closes a goal that has two different verdict texts equated among its
    hypotheses. *)
Ltac verdict_clash :=
  match goal with
  | H : ?x = ?y :> string |- _ =>
      exfalso; revert H;
      first [ apply eqb_false_neq | apply not_eq_sym, eqb_false_neq ];
      vm_compute; reflexivity
  end.

(** [classify] read as a function of the seven flags. *)
Lemma meningitis_classify_unfold (c s b l w g t : bool) :
  meningitis_classify
    {| coma := c; stiff_neck := s; bulging_fontanelle := b; lp_clear := l;
       csf_wbc_raised := w; gram_positive := g; test_done := t |}
  = if c || s || b || negb l then DEFINITE
    else if w || g then PROBABLE
    else if t then POSSIBLE else NO_SIGNS.
Proof. reflexivity. Qed.

(** [classify] read as a function of the nine flags and the age. *)
Lemma diarrhoea_classify_unfold (self : DiarrhoeaWorkflow) :
  diarrhoea_classify self
  = if flag self "weak_or_absent_pulse" && flag self "cold_hands_temp_gradient"
       && flag self "capillary_refill_gt_3s" && flag self "slow_skin_pinch"
    then SHOCK
    else if flag self "sunken_eyes" || flag self "unable_to_drink"
            || flag self "skin_pinch_gt_2s"
    then (if age self >=? 12 then SEVERE_2_5HRS else SEVERE_4HRS)
    else if Z.b2z (flag self "sunken_eyes")
            + Z.b2z (flag self "restless_irritable")
            + Z.b2z (flag self "skin_pinch_1_2s") >=? 2
    then SOME_DEHYDRATION
    else NO_DEHYDRATION.
Proof.
  unfold diarrhoea_classify, flag, Py.all, Py.any, Py.sum. cbn [forallb existsb fold_left].
  rewrite severe_text, !andb_true_r, !orb_false_r, !andb_assoc, !orb_assoc.
  reflexivity.
Qed.

(** C2. The meningitis classifier is a four-tier, first-match table: the
    verdict is Definite exactly when coma, stiff neck or bulging fontanelle
    is set or [lp_clear] is unset; failing that, Probable exactly when
    [csf_wbc_raised] or [gram_positive] is set; failing that, Possible
    exactly when [test_done] is set; and the fallback text otherwise.  An
    unset [lp_clear] with every other flag unset is Definite. *)
Theorem meningitis_classify_decision_table (self : MeningitisWorkflow) :
  let definite :=
    coma self = true \/ stiff_neck self = true \/
    bulging_fontanelle self = true \/ lp_clear self = false in
  let probable := csf_wbc_raised self = true \/ gram_positive self = true in
  (meningitis_classify self = DEFINITE <-> definite) /\
  (meningitis_classify self = PROBABLE <-> ~ definite /\ probable) /\
  (meningitis_classify self = POSSIBLE <->
     ~ definite /\ ~ probable /\ test_done self = true) /\
  (meningitis_classify self = NO_SIGNS <->
     ~ definite /\ ~ probable /\ test_done self = false) /\
  meningitis_classify
    {| coma := false; stiff_neck := false; bulging_fontanelle := false;
       lp_clear := false; csf_wbc_raised := false; gram_positive := false;
       test_done := false |} = DEFINITE.
Proof.
  destruct self as [c s b l w g t].
  cbn [coma stiff_neck bulging_fontanelle lp_clear csf_wbc_raised
       gram_positive test_done].
  rewrite meningitis_classify_unfold.
  repeat split;
    destruct c, s, b, l, w, g, t; cbn [orb negb];
    try reflexivity; intros; try verdict_clash; intuition congruence.
Qed.

(** C10. A workflow built with every constructor argument left at its
    default is classified Possible, not the fallback text. *)
Theorem meningitis_default_is_possible :
  meningitis_classify MeningitisWorkflow_default = POSSIBLE /\
  meningitis_classify MeningitisWorkflow_default <> NO_SIGNS /\
  lp_clear MeningitisWorkflow_default = true /\
  test_done MeningitisWorkflow_default = true.
Proof.
  repeat split. intros H. verdict_clash.
Qed.

(** The count of set flags among three, against the sum the code takes. *)
Lemma two_moderate_signs_sum (self : DiarrhoeaWorkflow) :
  two_moderate_signs self <->
  (Z.b2z (flag self "sunken_eyes") + Z.b2z (flag self "restless_irritable")
   + Z.b2z (flag self "skin_pinch_1_2s") >=? 2) = true.
Proof.
  unfold two_moderate_signs, count_true.
  destruct (flag self "sunken_eyes"), (flag self "restless_irritable"),
    (flag self "skin_pinch_1_2s"); cbn; split; intros; try lia; reflexivity || discriminate.
Qed.

(** Case analysis on the flags and the age test that [classify] reads. *)
Ltac diarrhoea_cases self :=
  rewrite ?two_moderate_signs_sum;
  unfold all_shock_signs, any_severe_sign;
  rewrite diarrhoea_classify_unfold;
  destruct (Z.geb_spec (age self) 12);
  destruct (flag self "weak_or_absent_pulse"),
    (flag self "cold_hands_temp_gradient"),
    (flag self "capillary_refill_gt_3s"), (flag self "slow_skin_pinch");
  cbn [andb];
  destruct (flag self "sunken_eyes"), (flag self "unable_to_drink"),
    (flag self "skin_pinch_gt_2s");
  cbn [orb];
  destruct (flag self "restless_irritable"), (flag self "skin_pinch_1_2s");
  cbn [Z.b2z Z.add Z.geb Z.compare Pos.compare Pos.compare_cont Pos.add].

(** C3. The diarrhoea classifier is a four-tier, first-match table: Shock
    exactly when the four shock flags are all set; failing that, Severe
    Dehydration exactly when one of [sunken_eyes], [unable_to_drink],
    [skin_pinch_gt_2s] is set, with the text ending in 2.5hrs from 12
    months of age and in 4hrs below; failing that, Some Dehydration exactly
    when at least two of [sunken_eyes], [restless_irritable],
    [skin_pinch_1_2s] are set; and No Dehydration otherwise. *)
Theorem diarrhoea_classify_decision_table (self : DiarrhoeaWorkflow) :
  (diarrhoea_classify self = SHOCK <-> all_shock_signs self) /\
  (diarrhoea_classify self = SEVERE_2_5HRS <->
     ~ all_shock_signs self /\ any_severe_sign self /\ 12 <= age self) /\
  (diarrhoea_classify self = SEVERE_4HRS <->
     ~ all_shock_signs self /\ any_severe_sign self /\ age self < 12) /\
  (diarrhoea_classify self = SOME_DEHYDRATION <->
     ~ all_shock_signs self /\ ~ any_severe_sign self /\
     two_moderate_signs self) /\
  (diarrhoea_classify self = NO_DEHYDRATION <->
     ~ all_shock_signs self /\ ~ any_severe_sign self /\
     ~ two_moderate_signs self).
Proof.
  diarrhoea_cases self; repeat split;
    intros; try reflexivity; try verdict_clash;
    try lia; intuition (congruence || lia).
Qed.

(** C9. [sunken_eyes] never contributes to Some Dehydration: when that is
    the verdict, [sunken_eyes] is unset and both [restless_irritable] and
    [skin_pinch_1_2s] are set. *)
Theorem some_dehydration_without_sunken_eyes (self : DiarrhoeaWorkflow) :
  diarrhoea_classify self = SOME_DEHYDRATION ->
  flag self "sunken_eyes" = false /\
  flag self "restless_irritable" = true /\
  flag self "skin_pinch_1_2s" = true.
Proof.
  diarrhoea_cases self; intros Hverdict; try verdict_clash; repeat split.
Qed.

Lemma some_dehydration_without_sunken_eyes_witness :
  let self :=
    {| age := 18;
       symptoms := <["restless_irritable" := true]>
                     (<["skin_pinch_1_2s" := true]> ∅) |} in
  diarrhoea_classify self = SOME_DEHYDRATION /\
  flag self "sunken_eyes" = false /\
  flag self "restless_irritable" = true /\
  flag self "skin_pinch_1_2s" = true.
Proof.
  intros self. split; [ vm_compute; reflexivity | ].
  apply (some_dehydration_without_sunken_eyes self). vm_compute. reflexivity.
Defined.

End PcatProperties.

(** ** moh_risk_scraper.py: the age range and the age filter *)

Section AgeRangeProperties.
Import MohRiskScraper.

(** The guard of [set_age_range] rejects exactly the pairs outside
    [0 <= min <= max <= 120]. *)
Lemma set_age_range_guard (min_months max_months : Z) :
  (min_months <? 0) || (max_months <? min_months) || (max_months >? 120) = false
  <-> 0 <= min_months <= max_months /\ max_months <= 120.
Proof.
  rewrite !orb_false_iff, !Z.ltb_ge, Z.gtb_ltb, Z.ltb_ge. lia.
Qed.

(** C5. [set_age_range] validates and is atomic: on a pair with
    [0 <= min <= max <= 120] it returns [True] and [get_age_range] then
    gives that pair; on any other pair it returns [False] and leaves the
    object, hence both bounds, as they were. *)
Theorem set_age_range_validated_atomic
    (self : AgeConstraintManager) (min_months max_months : Z) :
  (0 <= min_months <= max_months /\ max_months <= 120 ->
     fst (set_age_range self min_months max_months) = true /\
     get_age_range (snd (set_age_range self min_months max_months))
       = (min_months, max_months)) /\
  (~ (0 <= min_months <= max_months /\ max_months <= 120) ->
     fst (set_age_range self min_months max_months) = false /\
     snd (set_age_range self min_months max_months) = self /\
     get_age_range (snd (set_age_range self min_months max_months))
       = get_age_range self).
Proof.
  unfold set_age_range.
  destruct ((min_months <? 0) || (max_months <? min_months)
            || (max_months >? 120)) eqn:G.
  - split; intros Hr; [ | repeat split ].
    apply set_age_range_guard in Hr. congruence.
  - apply set_age_range_guard in G. split; intros Hr; [ | tauto ].
    split; reflexivity.
Qed.

Lemma set_age_range_validated_atomic_witness :
  (fst (set_age_range AgeConstraintManager_default 6 24) = true /\
   get_age_range (snd (set_age_range AgeConstraintManager_default 6 24))
     = (6, 24)) /\
  (fst (set_age_range AgeConstraintManager_default 30 10) = false /\
   snd (set_age_range AgeConstraintManager_default 30 10)
     = AgeConstraintManager_default /\
   get_age_range (snd (set_age_range AgeConstraintManager_default 30 10))
     = get_age_range AgeConstraintManager_default).
Proof.
  split.
  - apply (proj1 (set_age_range_validated_atomic
                    AgeConstraintManager_default 6 24)). lia.
  - apply (proj2 (set_age_range_validated_atomic
                    AgeConstraintManager_default 30 10)). lia.
Defined.

(** C8. [is_age_in_range] includes both bounds; after
    [set_age_range(6, 24)], which succeeds from any state, the ages 6, 18
    and 24 are in range and 30 is not. *)
Theorem is_age_in_range_inclusive
    (self : AgeConstraintManager) (age_months : Z) :
  (is_age_in_range self age_months = true <->
     mgr_min_age_months self <= age_months <= mgr_max_age_months self) /\
  fst (set_age_range self 6 24) = true /\
  is_age_in_range (snd (set_age_range self 6 24)) 6 = true /\
  is_age_in_range (snd (set_age_range self 6 24)) 18 = true /\
  is_age_in_range (snd (set_age_range self 6 24)) 24 = true /\
  is_age_in_range (snd (set_age_range self 6 24)) 30 = false.
Proof.
  split; [ | repeat split ].
  unfold is_age_in_range. rewrite andb_true_iff, !Z.leb_le. tauto.
Qed.

(** Membership in [target_diseases], as the code tests it. *)
Lemma in_target_diseases (s : string) :
  existsb (String.eqb s) target_diseases = true
  <-> s = "meningitis" \/ s = "diarrhoea".
Proof.
  unfold target_diseases. cbn [existsb].
  rewrite !orb_true_iff, !String.eqb_eq. intuition discriminate.
Qed.

(** C7. [_affects_target_age_group] looks at the name only: it holds
    exactly when the lowered name is one of the two names of the allow
    list, whatever age range the object carries. *)
Theorem affects_target_age_group_name_only
    (self : EnhancedMOHScraper) (disease : string) :
  (_affects_target_age_group self disease = true <->
     Py.lower disease = "meningitis" \/ Py.lower disease = "diarrhoea") /\
  (forall lo hi : Z,
     _affects_target_age_group
       {| min_age_months := lo; max_age_months := hi;
          risk_thresholds := risk_thresholds self |} disease
     = _affects_target_age_group self disease).
Proof.
  split.
  - apply in_target_diseases.
  - reflexivity.
Qed.

End AgeRangeProperties.

(** ** The float arithmetic of the case rate *)

Section FloatFacts.
Import PyNum.

(** *** Binary digits *)

Lemma digits2_pos_bounds (p : positive) :
  2 ^ (Zpos (digits2_pos p) - 1) <= Zpos p < 2 ^ Zpos (digits2_pos p).
Proof.
  induction p as [p IH | p IH | ]; cbn [digits2_pos].
  - rewrite Pos2Z.inj_succ, Z.pow_succ_r by lia.
    replace (Z.succ (Zpos (digits2_pos p)) - 1) with (Z.succ (Zpos (digits2_pos p) - 1)) by lia.
    rewrite Z.pow_succ_r by lia. lia.
  - rewrite Pos2Z.inj_succ, Z.pow_succ_r by lia.
    replace (Z.succ (Zpos (digits2_pos p)) - 1) with (Z.succ (Zpos (digits2_pos p) - 1)) by lia.
    rewrite Z.pow_succ_r by lia. lia.
  - cbn. lia.
Qed.

Lemma Zdigits2_bounds (m : Z) :
  0 < m -> 2 ^ (Zdigits2 m - 1) <= m < 2 ^ Zdigits2 m.
Proof.
  destruct m as [ | p | p ]; try lia. intros _. apply digits2_pos_bounds.
Qed.

Lemma Zdigits2_pos (m : Z) : 0 < m -> 0 < Zdigits2 m.
Proof. destruct m; cbn; lia. Qed.

(** [m < 2^n] bounds the digits of [m], and [2^n <= m] bounds them from
    below. *)
Lemma Zdigits2_le (m n : Z) : 0 < m -> 0 <= n -> m < 2 ^ n -> Zdigits2 m <= n.
Proof.
  intros Hm Hn Hlt. pose proof (Zdigits2_bounds m Hm) as [Hlo _].
  pose proof (Zdigits2_pos m Hm).
  destruct (Z_le_gt_dec (Zdigits2 m) n) as [ | Hgt ]; [ assumption | exfalso ].
  assert (2 ^ n <= 2 ^ (Zdigits2 m - 1)) by (apply Z.pow_le_mono_r; lia). lia.
Qed.

Lemma Zdigits2_gt (m n : Z) : 0 < m -> 0 <= n -> 2 ^ n <= m -> n < Zdigits2 m.
Proof.
  intros Hm Hn Hle. pose proof (Zdigits2_bounds m Hm) as [_ Hhi].
  pose proof (Zdigits2_pos m Hm).
  destruct (Z_lt_le_dec n (Zdigits2 m)) as [ | Hge ]; [ assumption | exfalso ].
  assert (2 ^ Zdigits2 m <= 2 ^ n) by (apply Z.pow_le_mono_r; lia). lia.
Qed.

(** *** Shifting the mantissa right *)

Lemma shr_1_m (mrs : shr_record) :
  0 <= shr_m mrs -> shr_m (shr_1 mrs) = shr_m mrs / 2.
Proof.
  destruct mrs as [m r s]. cbn [shr_m]. intros Hm.
  destruct m as [ | [ p | p | ] | p ]; cbn [shr_1 shr_m]; try lia.
  - reflexivity.
  - change (Zpos p~1) with (2 * Zpos p + 1).
    apply Z.div_unique with (r := 1); lia.
  - change (Zpos p~0) with (2 * Zpos p).
    apply Z.div_unique with (r := 0); lia.
  - reflexivity.
Qed.

Lemma iter_pos_shr_m (p : positive) (mrs : shr_record) :
  0 <= shr_m mrs ->
  shr_m (SpecFloat.iter_pos shr_1 p mrs) = shr_m mrs / 2 ^ Zpos p.
Proof.
  revert mrs. induction p as [p IH | p IH | ]; intros mrs Hm; cbn [SpecFloat.iter_pos].
  - assert (H1 : 0 <= shr_m (shr_1 mrs))
      by (rewrite shr_1_m by assumption; apply Z.div_pos; lia).
    assert (H2 : 0 <= shr_m (SpecFloat.iter_pos shr_1 p (shr_1 mrs)))
      by (rewrite IH by assumption; apply Z.div_pos; [ | apply Z.pow_pos_nonneg ]; lia).
    rewrite IH, IH, shr_1_m by assumption.
    rewrite !Z.div_div by (try apply Z.pow_pos_nonneg; lia).
    f_equal. change (Zpos p~1) with (2 * Zpos p + 1).
    replace (2 * Zpos p + 1) with (1 + Zpos p + Zpos p) by lia.
    rewrite !Z.pow_add_r by lia. lia.
  - assert (H2 : 0 <= shr_m (SpecFloat.iter_pos shr_1 p mrs))
      by (rewrite IH by assumption; apply Z.div_pos; [ | apply Z.pow_pos_nonneg ]; lia).
    rewrite IH, IH by assumption.
    rewrite !Z.div_div by (try apply Z.pow_pos_nonneg; lia).
    f_equal. change (Zpos p~0) with (2 * Zpos p).
    replace (2 * Zpos p) with (Zpos p + Zpos p) by lia.
    rewrite !Z.pow_add_r by lia. lia.
  - rewrite shr_1_m by assumption. reflexivity.
Qed.

Lemma shr_record_of_loc_m (m : Z) (l : location) :
  shr_m (shr_record_of_loc m l) = m.
Proof. destruct l as [ | [ | | ] ]; reflexivity. Qed.

(** The mantissa and exponent [shr] gives after a shift by [Z.max 0 n]. *)
Lemma shr_m_e (mrs : shr_record) (e n : Z) :
  0 <= shr_m mrs ->
  shr_m (fst (shr mrs e n)) = shr_m mrs / 2 ^ Z.max 0 n /\
  snd (shr mrs e n) = e + Z.max 0 n.
Proof.
  intros Hm. destruct n as [ | p | p ]; cbn [shr fst snd].
  - rewrite Z.max_l by lia. cbn. rewrite Z.div_1_r. lia.
  - rewrite Z.max_r by lia. rewrite iter_pos_shr_m by assumption. lia.
  - rewrite Z.max_l by lia. cbn. rewrite Z.div_1_r. lia.
Qed.

Lemma round_nearest_even_bounds (m : Z) (l : location) :
  m <= round_nearest_even m l <= m + 1.
Proof.
  destruct l as [ | [ | | ] ]; cbn [round_nearest_even]; try lia.
  destruct (Z.even m); lia.
Qed.

(** *** Rounding to binary64 *)

Lemma fexp_normal (x : Z) : -1074 <= x - 53 -> fexp prec emax x = x - 53.
Proof. unfold fexp, emin, prec, emax. lia. Qed.

(** What [shr_fexp] returns, for a positive mantissa in the normal range:
    the mantissa loses [Z.max 0 (digits - 53)] bits, which go to the
    exponent. *)
Lemma shr_fexp_normal (m e : Z) (l : location) :
  0 < m -> -1074 <= Zdigits2 m + e - 53 ->
  let k := Z.max 0 (Zdigits2 m - 53) in
  shr_m (fst (shr_fexp prec emax m e l)) = m / 2 ^ k /\
  snd (shr_fexp prec emax m e l) = e + k.
Proof.
  intros Hm Hn k. unfold shr_fexp.
  rewrite fexp_normal by assumption.
  replace (Zdigits2 m + e - 53 - e) with (Zdigits2 m - 53) by lia.
  pose proof (shr_m_e (shr_record_of_loc m l) e (Zdigits2 m - 53)) as H.
  rewrite shr_record_of_loc_m in H. apply H. lia.
Qed.

(** Dropping the bits beyond the 53rd leaves a mantissa of at most 53
    bits, and of as many bits as there were when there were fewer. *)
Lemma truncated_mantissa_bounds (m : Z) :
  0 < m ->
  let k := Z.max 0 (Zdigits2 m - 53) in
  2 ^ (Zdigits2 m - 1 - k) <= m / 2 ^ k < 2 ^ (Zdigits2 m - k) /\
  Zdigits2 m - k <= 53.
Proof.
  intros Hm k.
  pose proof (Zdigits2_bounds m Hm) as [Hlo Hhi].
  pose proof (Zdigits2_pos m Hm) as Hd.
  assert (Hk : 0 <= k <= Zdigits2 m - 1) by (unfold k; lia).
  assert (H2k : 0 < 2 ^ k) by (apply Z.pow_pos_nonneg; lia).
  repeat split; [ | | unfold k; lia ].
  - apply Z.div_le_lower_bound; [ assumption | ].
    rewrite <- Z.pow_add_r by lia.
    replace (k + (Zdigits2 m - 1 - k)) with (Zdigits2 m - 1) by lia. assumption.
  - apply Z.div_lt_upper_bound; [ assumption | ].
    rewrite <- Z.pow_add_r by lia.
    replace (k + (Zdigits2 m - k)) with (Zdigits2 m) by lia. assumption.
Qed.

(** [binary_round_aux] on a positive mantissa in the normal range: the
    result is the truncated mantissa or its successor, renormalised by one
    bit when the successor is [2^53], at the exponent that absorbed the
    dropped bits; beyond exponent 971 it is an infinity. *)
Lemma binary_round_aux_normal (m e : Z) (l : location) :
  0 < m -> -1074 <= Zdigits2 m + e - 53 ->
  let k := Z.max 0 (Zdigits2 m - 53) in
  exists (mq : positive) (k2 : Z),
    0 <= k2 <= 1 /\
    m / 2 ^ k <= Zpos mq * 2 ^ k2 <= m / 2 ^ k + 1 /\
    binary_round_aux prec emax false m e l =
      if e + k + k2 <=? 971 then S754_finite false mq (e + k + k2)
      else S754_infinity false.
Proof.
  intros Hm Hn k.
  pose proof (shr_fexp_normal m e l Hm Hn) as [Hm1 He1]. fold k in Hm1, He1.
  pose proof (truncated_mantissa_bounds m Hm) as [[Hlo Hhi] Hd]. fold k in Hlo, Hhi, Hd.
  pose proof (Zdigits2_pos m Hm) as Hdpos.
  unfold binary_round_aux.
  destruct (shr_fexp prec emax m e l) as [mrs1 e1]. cbn [fst snd] in Hm1, He1.
  set (mr := round_nearest_even (shr_m mrs1) (loc_of_shr_record mrs1)).
  pose proof (round_nearest_even_bounds (shr_m mrs1) (loc_of_shr_record mrs1)) as Hr.
  fold mr in Hr. rewrite Hm1 in Hr.
  assert (H1 : 1 <= m / 2 ^ k).
  { assert (2 ^ 0 <= 2 ^ (Zdigits2 m - 1 - k)) by (apply Z.pow_le_mono_r; unfold k; lia).
    change (2 ^ 0) with 1 in *. lia. }
  assert (Hmr : 0 < mr) by lia.
  assert (H53 : m / 2 ^ k < 2 ^ 53).
  { assert (2 ^ (Zdigits2 m - k) <= 2 ^ 53) by (apply Z.pow_le_mono_r; lia). lia. }
  assert (Hdr : Zdigits2 m - k <= Zdigits2 mr).
  { assert (Zdigits2 m - 1 - k < Zdigits2 mr); [ | lia ].
    apply Zdigits2_gt; [ assumption | unfold k; lia | lia ]. }
  assert (Hn2 : -1074 <= Zdigits2 mr + e1 - 53) by lia.
  pose proof (shr_fexp_normal mr e1 loc_Exact Hmr Hn2) as [Hm2 He2].
  destruct (shr_fexp prec emax mr e1 loc_Exact) as [mrs2 e2]. cbn [fst snd] in Hm2, He2.
  set (k2 := Z.max 0 (Zdigits2 mr - 53)) in *.
  assert (Hcases : (k2 = 0 /\ shr_m mrs2 = mr) \/ (k2 = 1 /\ mr = 2 ^ 53 /\ shr_m mrs2 = 2 ^ 52)).
  { destruct (Z_lt_le_dec mr (2 ^ 53)) as [Hlt | Hge].
    - left. assert (Zdigits2 mr <= 53) by (apply Zdigits2_le; lia).
      assert (Hk2 : k2 = 0) by (unfold k2; lia).
      split; [ assumption | ]. rewrite Hm2, Hk2.
      change (2 ^ 0) with 1. apply Z.div_1_r.
    - right. assert (Hmr53 : mr = 2 ^ 53) by lia.
      assert (Hd54 : Zdigits2 mr = 54) by (rewrite Hmr53; reflexivity).
      assert (Hk2 : k2 = 1) by (unfold k2; lia).
      split; [ assumption | split; [ assumption | ] ].
      rewrite Hm2, Hk2, Hmr53. reflexivity. }
  change (emax - prec) with 971.
  destruct Hcases as [[Hk2 Hs] | [Hk2 [Hmr53 Hs]]].
  - destruct (shr_m mrs2) as [ | mq | mq ] eqn:Em; try lia.
    exists mq, 0. rewrite He2, He1, Hk2. change (2 ^ 0) with 1.
    repeat split; try lia.
  - destruct (shr_m mrs2) as [ | mq | mq ] eqn:Em; try (exfalso; lia).
    exists mq, 1. rewrite He2, He1, Hk2. change (2 ^ 1) with 2.
    repeat split; try lia.
Qed.

End FloatFacts.

Section CompareFacts.
Import PyNum.

(** *** The exact comparison *)

Lemma scaled_leb_true (z m e : Z) :
  scaled_leb z m e = true <-> z * 2 ^ Z.max 0 (- e) <= m * 2 ^ Z.max 0 e.
Proof. unfold scaled_leb. apply Z.leb_le. Qed.

(** Moving [j] bits from the mantissa to the exponent keeps the value. *)
Lemma scaled_leb_shift (z m e j : Z) :
  0 <= j -> scaled_leb z (m * 2 ^ j) e = scaled_leb z m (e + j).
Proof.
  intros Hj. apply eq_true_iff_eq. rewrite !scaled_leb_true.
  destruct (Z_le_gt_dec 0 e) as [He | He].
  - rewrite (Z.max_l 0 (- e)), (Z.max_r 0 e), (Z.max_l 0 (- (e + j))),
      (Z.max_r 0 (e + j)) by lia.
    rewrite (Z.add_comm e j), Z.pow_add_r by lia. rewrite Z.mul_assoc. tauto.
  - destruct (Z_le_gt_dec 0 (e + j)) as [Hej | Hej].
    + rewrite (Z.max_r 0 (- e)), (Z.max_l 0 e), (Z.max_l 0 (- (e + j))),
        (Z.max_r 0 (e + j)) by lia.
      replace j with ((e + j) + - e) at 1 by lia.
      rewrite Z.pow_add_r by lia.
      assert (0 < 2 ^ (- e)) by (apply Z.pow_pos_nonneg; lia).
      change (2 ^ 0) with 1. rewrite !Z.mul_1_r, Z.mul_assoc.
      symmetry. apply Z.mul_le_mono_pos_r. assumption.
    + rewrite (Z.max_r 0 (- e)), (Z.max_l 0 e), (Z.max_r 0 (- (e + j))),
        (Z.max_l 0 (e + j)) by lia.
      replace (- e) with (- (e + j) + j) by lia.
      rewrite Z.pow_add_r by lia.
      assert (0 < 2 ^ j) by (apply Z.pow_pos_nonneg; lia).
      change (2 ^ 0) with 1. rewrite !Z.mul_1_r, Z.mul_assoc.
      symmetry. apply Z.mul_le_mono_pos_r. assumption.
Qed.

Lemma scaled_leb_mono (z z' m m' e : Z) :
  z' <= z -> m <= m' -> scaled_leb z m e = true -> scaled_leb z' m' e = true.
Proof.
  rewrite !scaled_leb_true. intros Hz Hm H.
  assert (0 < 2 ^ Z.max 0 (- e)) by (apply Z.pow_pos_nonneg; lia).
  assert (0 < 2 ^ Z.max 0 e) by (apply Z.pow_pos_nonneg; lia).
  nia.
Qed.

(** Dropping [k] low bits of the mantissa keeps it above an integer [z],
    as long as the exponent stays at or below zero. *)
Lemma scaled_leb_truncate (z m e k : Z) :
  0 <= k -> e + k <= 0 ->
  scaled_leb z m e = true -> scaled_leb z (m / 2 ^ k) (e + k) = true.
Proof.
  intros Hk He. rewrite !scaled_leb_true.
  rewrite (Z.max_r 0 (- e)), (Z.max_l 0 e), (Z.max_r 0 (- (e + k))),
    (Z.max_l 0 (e + k)) by lia.
  change (2 ^ 0) with 1. rewrite !Z.mul_1_r.
  replace (- e) with (k + - (e + k)) by lia.
  rewrite Z.pow_add_r by lia. intros H.
  assert (0 < 2 ^ k) by (apply Z.pow_pos_nonneg; lia).
  apply Z.div_le_lower_bound; [ assumption | lia ].
Qed.

(** A mantissa of 53 bits at a positive exponent is above [2^52]. *)
Lemma scaled_leb_large (z m e : Z) :
  z <= 2 ^ 52 -> 2 ^ 52 <= m -> 0 <= e -> scaled_leb z m e = true.
Proof.
  intros Hz Hm He. rewrite scaled_leb_true.
  rewrite (Z.max_l 0 (- e)), (Z.max_r 0 e) by lia.
  assert (1 <= 2 ^ e) by (change 1 with (2 ^ 0); apply Z.pow_le_mono_r; lia).
  change (2 ^ 0) with 1. nia.
Qed.

End CompareFacts.

Section QuotientFacts.
Import PyNum MohRiskScraper.

(** *** [cases / 100000] *)

Lemma SFdiv_core_100000 (c : Z) :
  0 < c ->
  SFdiv_core_binary prec emax c 0 100000 0
  = (div_quotient c, - div_shift c,
     new_location 100000 ((c * 2 ^ div_shift c) mod 100000)).
Proof.
  intros Hc. pose proof (Zdigits2_pos c Hc) as Hd.
  unfold SFdiv_core_binary.
  change (Zdigits2 100000) with 17.
  rewrite fexp_normal by lia.
  replace (0 - 0 - Z.min (Zdigits2 c + 0 - (17 + 0) - 53) (0 - 0))
    with (div_shift c) by (unfold div_shift; lia).
  replace (Z.min (Zdigits2 c + 0 - (17 + 0) - 53) (0 - 0))
    with (- div_shift c) by (unfold div_shift; lia).
  assert (Hm : match div_shift c with
               | Zpos _ => Z.shiftl c (div_shift c)
               | Z0 => c
               | Zneg _ => 0
               end = c * 2 ^ div_shift c).
  { assert (Hs : 0 <= div_shift c) by (unfold div_shift; lia).
    destruct (div_shift c) as [ | s | s ] eqn:Es; [ cbn; lia | | lia ].
    apply Z.shiftl_mul_pow2. lia. }
  rewrite Hm. unfold div_quotient, Z.div, Z.modulo.
  destruct (Z.div_eucl (c * 2 ^ div_shift c) 100000) as [q r]. reflexivity.
Qed.

Lemma div_quotient_bounds (c : Z) :
  0 < c ->
  2 ^ 69 <= c * 2 ^ div_shift c /\
  2 ^ 52 <= div_quotient c /\
  div_quotient c * 100000 <= c * 2 ^ div_shift c
    < (div_quotient c + 1) * 100000.
Proof.
  intros Hc. pose proof (Zdigits2_bounds c Hc) as [Hlo _].
  pose proof (Zdigits2_pos c Hc) as Hd.
  assert (H69 : 2 ^ 69 <= c * 2 ^ div_shift c).
  { unfold div_shift. destruct (Z_le_gt_dec (Zdigits2 c) 70) as [Hle | Hgt].
    - rewrite Z.max_r by lia.
      replace 69 with ((Zdigits2 c - 1) + (70 - Zdigits2 c)) by lia.
      rewrite Z.pow_add_r by lia.
      apply Z.mul_le_mono_nonneg_r; [ apply Z.pow_nonneg; lia | assumption ].
    - rewrite Z.max_l by lia. change (2 ^ 0) with 1. rewrite Z.mul_1_r.
      assert (2 ^ 69 <= 2 ^ (Zdigits2 c - 1)) by (apply Z.pow_le_mono_r; lia).
      lia. }
  split; [ assumption | ].
  unfold div_quotient.
  pose proof (Z.div_mod (c * 2 ^ div_shift c) 100000 ltac:(lia)) as Hdm.
  pose proof (Z.mod_pos_bound (c * 2 ^ div_shift c) 100000 ltac:(lia)) as Hmod.
  split; [ | lia ].
  apply Z.div_le_lower_bound; [ lia | ].
  assert (100000 * 2 ^ 52 <= 2 ^ 69) by (vm_compute; discriminate). lia.
Qed.

(** [cases / 100000] for a positive [cases]: a 53-bit mantissa that is
    the truncated quotient or its successor, or [OverflowError]. *)
Lemma int_truediv_100000 (c : Z) :
  0 < c ->
  let k := Zdigits2 (div_quotient c) - 53 in
  exists (mq : positive) (k2 : Z),
    0 <= k /\ 0 <= k2 <= 1 /\
    div_quotient c / 2 ^ k <= Zpos mq * 2 ^ k2 /\
    int_truediv c 100000 =
      if k - div_shift c + k2 <=? 971
      then Ok (S754_finite false mq (k - div_shift c + k2))
      else Raise OverflowError.
Proof.
  intros Hc k.
  pose proof (div_quotient_bounds c Hc) as [_ [HQ _]].
  assert (HQ0 : 0 < div_quotient c).
  { assert (0 < 2 ^ 52) by (apply Z.pow_pos_nonneg; lia). lia. }
  assert (Hd : 52 < Zdigits2 (div_quotient c)) by (apply Zdigits2_gt; lia).
  assert (Hs : 0 <= div_shift c <= 69).
  { pose proof (Zdigits2_pos c Hc). unfold div_shift. lia. }
  destruct (binary_round_aux_normal (div_quotient c) (- div_shift c)
              (new_location 100000 ((c * 2 ^ div_shift c) mod 100000)) HQ0
              ltac:(lia)) as (mq & k2 & Hk2 & [Hlo _] & Hr).
  rewrite (Z.max_r 0 (Zdigits2 (div_quotient c) - 53)) in Hlo, Hr by lia.
  fold k in Hlo, Hr.
  exists mq, k2.
  split; [ unfold k; lia | ]. split; [ lia | ]. split; [ exact Hlo | ].
  unfold int_truediv. change (100000 =? 0) with false. cbv iota.
  replace (SFdiv prec emax (exact_of_int c) (exact_of_int 100000))
    with (let '(mz, ez, lz) := SFdiv_core_binary prec emax c 0 100000 0 in
          binary_round_aux prec emax false mz ez lz)
    by (destruct c; [ lia | reflexivity | lia ]).
  rewrite SFdiv_core_100000 by lia. rewrite Hr.
  replace (- div_shift c + k + k2) with (k - div_shift c + k2) by lia.
  destruct (k - div_shift c + k2 <=? 971); reflexivity.
Qed.

End QuotientFacts.

Section ThresholdFacts.
Import PyNum MohRiskScraper.

(** The quotient [cases / 100000], times 100000, is at least any integer
    threshold below [cases] (thresholds up to [2^52]). *)
Lemma int_truediv_100000_reaches (c T : Z) (q : float) :
  0 <= T <= 2 ^ 52 -> T < c ->
  int_truediv c 100000 = Ok q ->
  exists (mq : positive) (eq : Z),
    q = S754_finite false mq eq /\ -69 <= eq /\
    scaled_leb T (Zpos mq * 100000) eq = true.
Proof.
  intros HT Hc Hq.
  assert (Hc0 : 0 < c) by lia.
  destruct (int_truediv_100000 c Hc0) as (mq & k2 & Hk & Hk2 & Hlo & Hr).
  pose proof (div_quotient_bounds c Hc0) as (_ & HQ & HQlo & HQhi).
  set (Q := div_quotient c) in *. set (s := div_shift c) in *.
  set (k := Zdigits2 Q - 53) in *.
  assert (HQ0 : 0 < Q) by (assert (0 < 2 ^ 52) by (apply Z.pow_pos_nonneg; lia); lia).
  assert (Hs : 0 <= s <= 69).
  { pose proof (Zdigits2_pos c Hc0). unfold s, div_shift. lia. }
  pose proof (truncated_mantissa_bounds Q HQ0) as [[Hm1 _] _].
  rewrite (Z.max_r 0 (Zdigits2 Q - 53)) in Hm1 by (fold k; lia). fold k in Hm1.
  replace (Zdigits2 Q - 1 - k) with 52 in Hm1 by (unfold k; lia).
  set (m1 := Q / 2 ^ k) in *.
  rewrite Hr in Hq. destruct (k - s + k2 <=? 971); [ | discriminate ].
  injection Hq as <-. exists mq, (k - s + k2).
  split; [ reflexivity | ]. split; [ lia | ].
  rewrite <- scaled_leb_shift by lia.
  apply scaled_leb_mono with (z := T) (m := m1 * 100000); [ lia | nia | ].
  destruct (Z_le_gt_dec 0 (k - s)) as [Hpos | Hneg].
  - apply scaled_leb_large; [ lia | nia | assumption ].
  - apply scaled_leb_true.
    rewrite (Z.max_r 0 (- (k - s))), (Z.max_l 0 (k - s)) by lia.
    change (2 ^ 0) with 1. rewrite Z.mul_1_r.
    set (P := 2 ^ (- (k - s))).
    assert (HP : 0 < P) by (apply Z.pow_pos_nonneg; lia).
    assert (HK : 0 < 2 ^ k) by (apply Z.pow_pos_nonneg; lia).
    assert (H2s : 2 ^ s = P * 2 ^ k).
    { unfold P. rewrite <- Z.pow_add_r by lia. f_equal. lia. }
    assert (HQm : Q < (m1 + 1) * 2 ^ k).
    { pose proof (Z.div_mod Q (2 ^ k) ltac:(lia)) as Hdm.
      pose proof (Z.mod_pos_bound Q (2 ^ k) HK) as Hmod. fold m1 in Hdm. nia. }
    assert (H1 : (T + 1) * P * 2 ^ k < (m1 + 1) * 100000 * 2 ^ k).
    { rewrite H2s in HQhi. nia. }
    assert (H2 : (T + 1) * P < (m1 + 1) * 100000).
    { apply Z.mul_lt_mono_pos_r with (p := 2 ^ k); assumption. }
    assert (H3 : T * P * (T + 1) <= m1 * 100000 * (T + 1)) by nia.
    apply Z.mul_le_mono_pos_r with (p := T + 1); [ lia | assumption ].
Qed.

(** [float(100000)] *)
Lemma float_of_int_100000 :
  float_of_int 100000 = Ok (S754_finite false 6871947673600000 (-36)).
Proof. reflexivity. Qed.

(** A quotient that, times 100000, is at least an integer [T] keeps the
    product [q * 100000] at or above [T] after rounding. *)
Lemma float_mul_100000_reaches (T : Z) (mq : positive) (eq : Z) :
  0 <= T <= 2 ^ 52 -> -69 <= eq ->
  scaled_leb T (Zpos mq * 100000) eq = true ->
  exists r : float,
    float_mul_int (S754_finite false mq eq) 100000 = Ok r /\
    float_ge_int r T = true.
Proof.
  intros HT Heq Hge.
  unfold float_mul_int. rewrite float_of_int_100000. cbn [bind].
  eexists. split; [ reflexivity | ].
  unfold float_mul. cbn [SFmul xorb].
  set (m := Zpos (mq * 6871947673600000)). set (e := eq + -36).
  assert (Hm : m = Zpos mq * 100000 * 2 ^ 36) by (unfold m; rewrite Pos2Z.inj_mul; lia).
  assert (Hm0 : 0 < m) by (unfold m; lia).
  pose proof (Zdigits2_pos m Hm0) as Hd.
  destruct (binary_round_aux_normal m e loc_Exact Hm0 ltac:(unfold e; lia))
    as (mr & k2 & Hk2 & [Hlo _] & Hr).
  rewrite Hr. set (k := Z.max 0 (Zdigits2 m - 53)) in *.
  destruct (e + k + k2 <=? 971); [ | reflexivity ].
  cbn [float_ge_int].
  rewrite <- scaled_leb_shift by lia.
  apply scaled_leb_mono with (z := T) (m := m / 2 ^ k); [ lia | lia | ].
  assert (Hme : scaled_leb T m e = true).
  { rewrite Hm. unfold e. rewrite scaled_leb_shift by lia.
    replace (eq + -36 + 36) with eq by lia. assumption. }
  destruct (Z_le_gt_dec (Zdigits2 m) 53) as [Hfew | Hmany].
  - assert (Hk : k = 0) by (unfold k; lia).
    rewrite Hk. change (2 ^ 0) with 1. rewrite Z.div_1_r, Z.add_0_r. assumption.
  - assert (Hk : k = Zdigits2 m - 53) by (unfold k; lia).
    destruct (Z_le_gt_dec (e + k) 0) as [Hle | Hgt].
    + apply scaled_leb_truncate; [ lia | assumption | assumption ].
    + pose proof (truncated_mantissa_bounds m Hm0) as [[Hm1 _] _]. fold k in Hm1.
      replace (Zdigits2 m - 1 - k) with 52 in Hm1 by lia.
      apply scaled_leb_large; [ lia | assumption | lia ].
Qed.

End ThresholdFacts.

Section CaseRateFacts.
Import PyNum MohRiskScraper.

(** The case rate of [cases] reaches every integer threshold below
    [cases] (thresholds up to [2^52]). *)
Lemma cases_per_100k_reaches (c T : Z) (rate : num) :
  0 <= T <= 2 ^ 52 -> T < c ->
  cases_per_100k c = Ok rate -> ge_int rate T = true.
Proof.
  intros HT Hc. unfold cases_per_100k.
  replace (c >? 0) with true by (symmetry; apply Z.gtb_lt; lia).
  destruct (int_truediv c 100000) as [q | ex] eqn:Hq; cbn [bind]; [ | discriminate ].
  destruct (int_truediv_100000_reaches c T q HT Hc Hq) as (mq & eq & -> & Heq & Hge).
  destruct (float_mul_100000_reaches T mq eq HT Heq Hge) as (r & -> & Hr).
  cbn [bind]. intros [= <-]. exact Hr.
Qed.

(** The division does not overflow below [2^1039], and nothing else in
    the case rate can raise. *)
Lemma cases_per_100k_returns (c : Z) :
  c < 2 ^ 1039 -> exists rate : num, cases_per_100k c = Ok rate.
Proof.
  intros Hc. unfold cases_per_100k.
  destruct (Z.gtb_spec c 0) as [Hc0 | Hc0]; [ | eexists; reflexivity ].
  destruct (int_truediv_100000 c Hc0) as (mq & k2 & Hk & Hk2 & _ & Hr).
  pose proof (div_quotient_bounds c Hc0) as (_ & HQ & HQlo & _).
  set (Q := div_quotient c) in *. set (s := div_shift c) in *.
  assert (HQ0 : 0 < Q) by (assert (0 < 2 ^ 52) by (apply Z.pow_pos_nonneg; lia); lia).
  assert (Hcs : c * 2 ^ s < 2 ^ 1039).
  { pose proof (Zdigits2_bounds c Hc0) as [_ Hhi].
    pose proof (Zdigits2_pos c Hc0) as Hd.
    unfold s, div_shift. destruct (Z_le_gt_dec (Zdigits2 c) 70) as [Hle | Hgt].
    - rewrite Z.max_r by lia.
      assert (0 < 2 ^ (70 - Zdigits2 c)) by (apply Z.pow_pos_nonneg; lia).
      assert (c * 2 ^ (70 - Zdigits2 c) < 2 ^ Zdigits2 c * 2 ^ (70 - Zdigits2 c)) by nia.
      rewrite <- Z.pow_add_r in * by lia.
      replace (Zdigits2 c + (70 - Zdigits2 c)) with 70 in * by lia.
      assert (2 ^ 70 <= 2 ^ 1039) by (apply Z.pow_le_mono_r; lia). lia.
    - rewrite Z.max_l by lia. change (2 ^ 0) with 1. lia. }
  assert (HQhi : Q < 2 ^ 1023).
  { assert (H : 2 ^ 1039 = 2 ^ 1023 * 65536) by reflexivity.
    assert (0 < 2 ^ 1023) by (apply Z.pow_pos_nonneg; lia). nia. }
  assert (Hd : Zdigits2 Q <= 1023) by (apply Zdigits2_le; lia).
  assert (Hs : 0 <= s) by (unfold s, div_shift; lia).
  rewrite Hr.
  replace (Zdigits2 Q - 53 - s + k2 <=? 971) with true
    by (symmetry; apply Z.leb_le; lia).
  cbn [bind]. unfold float_mul_int. rewrite float_of_int_100000. cbn [bind].
  eexists. reflexivity.
Qed.

(** Up to 50 cases, the case rate passes a threshold of the built-in
    table exactly when the case count does. *)
Lemma small_case_rates :
  forallb
    (fun c =>
       forallb
         (fun T =>
            match cases_per_100k (Z.of_nat c) with
            | Ok rate => Bool.eqb (ge_int rate T) (T <=? Z.of_nat c)
            | Raise _ => false
            end)
         [5; 10; 20; 50])
    (seq 1 50) = true.
Proof. vm_compute. reflexivity. Qed.

(** On the thresholds of the built-in table the case rate and the case
    count pass the same tests, whatever the case count. *)
Lemma builtin_rate_test (c T : Z) (rate : num) :
  In T [5; 10; 20; 50] ->
  cases_per_100k c = Ok rate -> ge_int rate T = (T <=? c).
Proof.
  intros HT Hrate.
  assert (HT' : 5 <= T <= 50) by (cbn in HT; lia).
  destruct (Z_le_gt_dec c 0) as [Hneg | Hpos].
  - unfold cases_per_100k in Hrate.
    destruct (Z.gtb_spec c 0) as [Hc0 | _]; [ lia | ].
    injection Hrate as <-. cbn [ge_int].
    transitivity false; [ | symmetry ]; apply Z.leb_gt; lia.
  - destruct (Z_le_gt_dec c 50) as [Hsmall | Hbig].
    + pose proof small_case_rates as Htab.
      rewrite forallb_forall in Htab.
      specialize (Htab (Z.to_nat c) ltac:(apply in_seq; lia)).
      rewrite forallb_forall in Htab. specialize (Htab T HT).
      rewrite Z2Nat.id, Hrate in Htab by lia.
      apply Bool.eqb_prop. assumption.
    + rewrite (cases_per_100k_reaches c T rate) by (try assumption; lia).
      symmetry. apply Z.leb_le. lia.
Qed.

End CaseRateFacts.

(** ** moh_risk_scraper.py: the outbreak risk classifier *)

Section RiskLevelProperties.
Import PyNum MohRiskScraper.

(** The built-in table holds the two diseases and nothing else. *)
Lemma builtin_table_lookup (disease : string) (t : thresholds) :
  risk_thresholds EnhancedMOHScraper__init__ !! disease = Some t ->
  (disease = "meningitis" /\
   thr_cases_per_100k (high t) = 10 /\ thr_cases_per_100k (medium t) = 5) \/
  (disease = "diarrhoea" /\
   thr_cases_per_100k (high t) = 50 /\ thr_cases_per_100k (medium t) = 20).
Proof.
  cbn [risk_thresholds EnhancedMOHScraper__init__].
  rewrite !lookup_insert_Some, lookup_empty.
  intros [[<- <-] | [_ [[<- <-] | [_ H]]]]; [ left | right | discriminate ];
    repeat split.
Qed.

(** The code's two tests and its [else] agree with trying the three tiers
    in order and defaulting to Low. *)
Lemma risk_of_rate_first_tier (t : thresholds) (rate : num) (deaths : Z) :
  risk_of_rate t rate deaths = first_tier_met t rate deaths.
Proof.
  unfold risk_of_rate, first_tier_met, tiers_high_to_low, tier_met.
  cbn [find snd]. rewrite !Z.geb_leb.
  destruct (ge_int rate (thr_cases_per_100k (high t)) || (thr_deaths (high t) <=? deaths));
    [ reflexivity | ].
  destruct (ge_int rate (thr_cases_per_100k (medium t)) || (thr_deaths (medium t) <=? deaths));
    [ reflexivity | ].
  destruct (ge_int rate (thr_cases_per_100k (low t)) || (thr_deaths (low t) <=? deaths));
    reflexivity.
Qed.

(** C1 (the code at the failing input). The lookup compares the name as
    given: [Meningitis] misses the key [meningitis] and gets the default
    tier, while its lowered form is classified from the table. *)
Theorem risk_lookup_is_case_sensitive :
  Py.lower "Meningitis" = "meningitis" /\
  _calculate_risk_level EnhancedMOHScraper__init__ "Meningitis" 25 3
    = Ok "Medium" /\
  _calculate_risk_level EnhancedMOHScraper__init__ (Py.lower "Meningitis") 25 3
    = Ok "High" /\
  _affects_target_age_group EnhancedMOHScraper__init__ "Meningitis" = true.
Proof. repeat split; vm_compute; reflexivity. Qed.

(** C4, as stated, fails for a disease of the table: on a case count
    whose quotient by 100000 exceeds the range of a float the division
    raises, so no tier is returned, although the deaths alone meet the
    High tier. *)
Lemma calculate_risk_level_overflow_counterexample :
  ~ (forall (disease : string) (cases deaths : Z) (t : thresholds),
       risk_thresholds EnhancedMOHScraper__init__ !! disease = Some t ->
       exists rate : num,
         _calculate_risk_level EnhancedMOHScraper__init__ disease cases deaths
         = Ok (first_tier_met t rate deaths)).
Proof.
  intros H.
  destruct (H "meningitis" (2 ^ 1041) 3 _ ltac:(vm_compute; reflexivity))
    as [rate Hrate].
  vm_compute in Hrate. discriminate Hrate.
Qed.

(** From [2^1041] cases on the quotient is [2^1024] or more, the division
    overflows and the case rate raises [OverflowError]. *)
Lemma cases_per_100k_overflows (c : Z) :
  2 ^ 1041 <= c -> cases_per_100k c = Raise OverflowError.
Proof.
  intros Hc.
  assert (H1041 : 0 < 2 ^ 1041) by (apply Z.pow_pos_nonneg; lia).
  assert (Hc0 : 0 < c) by lia.
  unfold cases_per_100k.
  destruct (Z.gtb_spec c 0) as [_ | Hle]; [ | lia ].
  destruct (int_truediv_100000 c Hc0) as (mq & k2 & Hk & Hk2 & _ & ->).
  pose proof (div_quotient_bounds c Hc0) as (_ & HQ & _ & _).
  assert (Hshift : div_shift c = 0).
  { assert (1041 < Zdigits2 c) by (apply Zdigits2_gt; lia).
    unfold div_shift. lia. }
  assert (HQbig : 2 ^ 1024 <= div_quotient c).
  { unfold div_quotient. rewrite Hshift. change (2 ^ 0) with 1.
    rewrite Z.mul_1_r. apply Z.div_le_lower_bound; [ lia | ].
    assert (H : 100000 * 2 ^ 1024 <= 2 ^ 1041) by (vm_compute; discriminate).
    lia. }
  assert (Hd : 1024 < Zdigits2 (div_quotient c)).
  { assert (0 < 2 ^ 1024) by (apply Z.pow_pos_nonneg; lia).
    apply Zdigits2_gt; lia. }
  rewrite Hshift.
  replace (Zdigits2 (div_quotient c) - 53 - 0 + k2 <=? 971) with false
    by (symmetry; apply Z.leb_gt; lia).
  reflexivity.
Qed.

(** The case rate raises nothing but [OverflowError]. *)
Lemma cases_per_100k_raises (c : Z) (e : exn) :
  cases_per_100k c = Raise e -> e = OverflowError.
Proof.
  unfold cases_per_100k.
  destruct (Z.gtb_spec c 0) as [Hc | Hc]; [ | discriminate ].
  destruct (int_truediv_100000 c Hc) as (mq & k2 & _ & _ & _ & ->).
  destruct (_ <=? 971); cbn [bind].
  - unfold float_mul_int. rewrite float_of_int_100000. cbn [bind]. discriminate.
  - intros [= <-]. reflexivity.
Qed.

(** C4, amended. A disease absent from the table is Medium, whatever
    the counts.  For a disease of the table, whenever the case rate is
    computed the result is the first tier, from High down to Low, whose
    case threshold is reached by the case rate or whose death threshold is
    reached by the deaths, and Low when no tier is met.  The case rate is
    that of the case count: it is the integer 0 for a count of 0 or less,
    it reaches every integer threshold (from 0 to [2^52]) below the count,
    it is computed for every count below [2^1039], and from [2^1041] on the
    division overflows and the call raises [OverflowError]; for every
    count, those in between included, the call either returns the first
    tier met or raises [OverflowError].  With the
    built-in table and a count below [2^1039] the result is the first tier
    met by the raw case count.  The five sample classifications of the
    specification hold, and so do samples that the cases alone decide. *)
Theorem calculate_risk_level_first_tier
    (self : EnhancedMOHScraper) (disease : string) (cases deaths : Z) :
  (risk_thresholds self !! disease = None ->
     _calculate_risk_level self disease cases deaths = Ok "Medium") /\
  (forall t : thresholds,
     risk_thresholds self !! disease = Some t ->
     (forall rate : num,
        cases_per_100k cases = Ok rate ->
        _calculate_risk_level self disease cases deaths
          = Ok (first_tier_met t rate deaths)) /\
     (cases < 2 ^ 1039 ->
        exists rate : num,
          cases_per_100k cases = Ok rate /\
          _calculate_risk_level self disease cases deaths
            = Ok (first_tier_met t rate deaths)) /\
     (2 ^ 1041 <= cases ->
        _calculate_risk_level self disease cases deaths
          = Raise OverflowError) /\
     ((exists rate : num,
         cases_per_100k cases = Ok rate /\
         _calculate_risk_level self disease cases deaths
           = Ok (first_tier_met t rate deaths)) \/
      _calculate_risk_level self disease cases deaths
        = Raise OverflowError)) /\
  (cases <= 0 -> cases_per_100k cases = Ok (PInt 0)) /\
  (forall (rate : num) (T : Z),
     cases_per_100k cases = Ok rate ->
     0 <= T <= 2 ^ 52 -> T < cases -> ge_int rate T = true) /\
  (forall t : thresholds,
     risk_thresholds EnhancedMOHScraper__init__ !! disease = Some t ->
     cases < 2 ^ 1039 ->
     _calculate_risk_level EnhancedMOHScraper__init__ disease cases deaths
       = Ok (first_tier_met t (PInt cases) deaths)) /\
  _calculate_risk_level EnhancedMOHScraper__init__ "meningitis" 25 3 = Ok "High" /\
  _calculate_risk_level EnhancedMOHScraper__init__ "meningitis" 8 1 = Ok "Medium" /\
  _calculate_risk_level EnhancedMOHScraper__init__ "meningitis" 2 0 = Ok "Low" /\
  _calculate_risk_level EnhancedMOHScraper__init__ "diarrhoea" 100 6 = Ok "High" /\
  _calculate_risk_level EnhancedMOHScraper__init__ "unknown_disease" 1 0
    = Ok "Medium" /\
  _calculate_risk_level EnhancedMOHScraper__init__ "meningitis" 10 0 = Ok "High" /\
  _calculate_risk_level EnhancedMOHScraper__init__ "meningitis" 9 0 = Ok "Medium" /\
  _calculate_risk_level EnhancedMOHScraper__init__ "meningitis" 4 0 = Ok "Low" /\
  _calculate_risk_level EnhancedMOHScraper__init__ "diarrhoea" 50 0 = Ok "High" /\
  _calculate_risk_level EnhancedMOHScraper__init__ "diarrhoea" 49 0 = Ok "Medium" /\
  _calculate_risk_level EnhancedMOHScraper__init__ "diarrhoea" 19 0 = Ok "Low".
Proof.
  split; [ | split; [ | split; [ | split; [ | split ] ] ] ].
  - unfold _calculate_risk_level. intros ->. reflexivity.
  - intros t Ht.
    assert (Hrate : forall rate : num,
               cases_per_100k cases = Ok rate ->
               _calculate_risk_level self disease cases deaths
               = Ok (first_tier_met t rate deaths)).
    { intros rate Hrate. unfold _calculate_risk_level.
      rewrite Ht, Hrate. cbn [bind]. rewrite risk_of_rate_first_tier. reflexivity. }
    split; [ exact Hrate | split; [ | split ] ].
    + intros Hc. destruct (cases_per_100k_returns cases Hc) as [rate Hr].
      exists rate. split; [ assumption | apply Hrate; assumption ].
    + intros Hc. unfold _calculate_risk_level.
      rewrite Ht, (cases_per_100k_overflows cases Hc). reflexivity.
    + destruct (cases_per_100k cases) as [ rate | e ] eqn:Hr.
      * left. exists rate. split; [ reflexivity | apply Hrate; reflexivity ].
      * right. unfold _calculate_risk_level. rewrite Ht, Hr. cbn [bind].
        rewrite (cases_per_100k_raises cases e Hr). reflexivity.
  - intros Hc. unfold cases_per_100k.
    destruct (Z.gtb_spec cases 0); [ lia | reflexivity ].
  - intros rate T Hrate HT Hlt.
    exact (cases_per_100k_reaches cases T rate HT Hlt Hrate).
  - intros t Ht Hc. unfold _calculate_risk_level. rewrite Ht.
    destruct (cases_per_100k_returns cases Hc) as [rate Hrate].
    rewrite Hrate. cbn [bind]. rewrite <- risk_of_rate_first_tier.
    f_equal. unfold risk_of_rate. cbn [ge_int].
    destruct (builtin_table_lookup disease t Ht) as [(_ & -> & ->) | (_ & -> & ->)];
      rewrite !(builtin_rate_test cases _ rate) by (try assumption; cbn; tauto);
      reflexivity.
  - repeat split; vm_compute; reflexivity.
Qed.

Lemma calculate_risk_level_first_tier_witness :
  let t :=
    {| high := {| thr_cases_per_100k := 10; thr_deaths := 2 |};
       medium := {| thr_cases_per_100k := 5; thr_deaths := 1 |};
       low := {| thr_cases_per_100k := 1; thr_deaths := 0 |} |} in
  _calculate_risk_level EnhancedMOHScraper__init__ "unknown_disease" 1 0
    = Ok "Medium" /\
  (exists rate : num,
     cases_per_100k 8 = Ok rate /\
     _calculate_risk_level EnhancedMOHScraper__init__ "meningitis" 8 1
       = Ok (first_tier_met t rate 1)) /\
  _calculate_risk_level EnhancedMOHScraper__init__ "meningitis" (2 ^ 1041) 3
    = Raise OverflowError /\
  ((exists rate : num,
      cases_per_100k (2 ^ 1040) = Ok rate /\
      _calculate_risk_level EnhancedMOHScraper__init__ "meningitis" (2 ^ 1040) 3
        = Ok (first_tier_met t rate 3)) \/
   _calculate_risk_level EnhancedMOHScraper__init__ "meningitis" (2 ^ 1040) 3
     = Raise OverflowError) /\
  cases_per_100k (-4) = Ok (PInt 0) /\
  (exists rate : num,
     cases_per_100k 7 = Ok rate /\ ge_int rate 6 = true) /\
  _calculate_risk_level EnhancedMOHScraper__init__ "meningitis" 7 0
    = Ok (first_tier_met t (PInt 7) 0).
Proof.
  intros t.
  assert (Ht : risk_thresholds EnhancedMOHScraper__init__ !! "meningitis"
               = Some t) by (vm_compute; reflexivity).
  split; [ | split; [ | split; [ | split; [ | split; [ | split ] ] ] ] ].
  - apply (proj1 (calculate_risk_level_first_tier
                    EnhancedMOHScraper__init__ "unknown_disease" 1 0)).
    vm_compute. reflexivity.
  - apply (proj1 (proj2 (proj1 (proj2 (calculate_risk_level_first_tier
                                         EnhancedMOHScraper__init__
                                         "meningitis" 8 1)) t Ht))).
    vm_compute. reflexivity.
  - apply (proj1 (proj2 (proj2 (proj1 (proj2 (calculate_risk_level_first_tier
                                                EnhancedMOHScraper__init__
                                                "meningitis" (2 ^ 1041) 3))
                                 t Ht)))).
    vm_compute. discriminate.
  - exact (proj2 (proj2 (proj2 (proj1 (proj2 (calculate_risk_level_first_tier
                                                EnhancedMOHScraper__init__
                                                "meningitis" (2 ^ 1040) 3))
                                 t Ht)))).
  - apply (proj1 (proj2 (proj2 (calculate_risk_level_first_tier
                                  EnhancedMOHScraper__init__ "meningitis" (-4) 0)))).
    lia.
  - destruct (cases_per_100k 7) as [ rate | e ] eqn:Hrate;
      [ | vm_compute in Hrate; discriminate Hrate ].
    exists rate. split; [ reflexivity | ].
    apply (proj1 (proj2 (proj2 (proj2 (calculate_risk_level_first_tier
                                         EnhancedMOHScraper__init__
                                         "meningitis" 7 0)))) rate 6 Hrate).
    + split; [ lia | vm_compute; discriminate ].
    + lia.
  - apply (proj1 (proj2 (proj2 (proj2 (proj2 (calculate_risk_level_first_tier
                                                EnhancedMOHScraper__init__
                                                "meningitis" 7 0))))) t Ht).
    vm_compute. reflexivity.
Defined.

(** In binary64 the formula is not the identity: 7 cases give a rate
    just below 7.  A table with a case threshold of 7 therefore tells the
    formula from the raw count; the thresholds of the built-in table do
    not. *)
Lemma case_rate_of_7_is_below_7 :
  exists x : float,
    cases_per_100k 7 = Ok (PFloat x) /\
    float_ge_int x 7 = false /\ float_ge_int x 6 = true.
Proof. eexists. repeat split. Qed.

Lemma rate_normalization_depends_on_table :
  let self :=
    {| min_age_months := 1; max_age_months := 60;
       risk_thresholds :=
         <["measles" :=
             {| high := {| thr_cases_per_100k := 7; thr_deaths := 100 |};
                medium := {| thr_cases_per_100k := 3; thr_deaths := 50 |};
                low := {| thr_cases_per_100k := 1; thr_deaths := 0 |} |}]> ∅ |} in
  _calculate_risk_level self "measles" 7 0 = Ok "Medium" /\
  calculate_risk_level_raw_count self "measles" 7 0 = "High".
Proof. split; vm_compute; reflexivity. Qed.

(** C6, as stated, fails: a case count whose quotient by 100000 exceeds
    the range of a float makes the division raise, where the variant on
    the raw count answers High. *)
Lemma rate_normalization_overflow_counterexample :
  ~ (forall (disease : string) (cases deaths : Z) (t : thresholds),
       risk_thresholds EnhancedMOHScraper__init__ !! disease = Some t ->
       0 <= cases ->
       _calculate_risk_level EnhancedMOHScraper__init__ disease cases deaths
       = Ok (calculate_risk_level_raw_count
               EnhancedMOHScraper__init__ disease cases deaths)).
Proof.
  intros H.
  specialize (H "meningitis" (2 ^ 1041) 0 _ ltac:(vm_compute; reflexivity)
                ltac:(vm_compute; discriminate)).
  vm_compute in H. discriminate H.
Qed.

(** C6, amended. With the built-in table, whenever the classifier
    returns, it returns the tier of the variant that compares the raw case
    count with the case thresholds; and it returns for every case count
    below [2^1039].  (This holds for every disease name, in the table or
    not, and for negative counts as well.) *)
Theorem rate_normalization_noop_below_overflow
    (disease : string) (cases deaths : Z) :
  (forall level : string,
     _calculate_risk_level EnhancedMOHScraper__init__ disease cases deaths
       = Ok level ->
     level = calculate_risk_level_raw_count
               EnhancedMOHScraper__init__ disease cases deaths) /\
  (cases < 2 ^ 1039 ->
     _calculate_risk_level EnhancedMOHScraper__init__ disease cases deaths
     = Ok (calculate_risk_level_raw_count
             EnhancedMOHScraper__init__ disease cases deaths)).
Proof.
  assert (Hret : forall level : string,
             _calculate_risk_level EnhancedMOHScraper__init__ disease cases deaths
             = Ok level ->
             level = calculate_risk_level_raw_count
                       EnhancedMOHScraper__init__ disease cases deaths).
  { unfold _calculate_risk_level, calculate_risk_level_raw_count.
    destruct (risk_thresholds EnhancedMOHScraper__init__ !! disease) as [t | ] eqn:Ht;
      [ | intros level [= <-]; reflexivity ].
    destruct (cases_per_100k cases) as [rate | ex] eqn:Hrate; cbn [bind];
      [ | discriminate ].
    intros level [= <-]. unfold risk_of_rate. cbn [ge_int].
    destruct (builtin_table_lookup disease t Ht) as [(_ & -> & ->) | (_ & -> & ->)];
      rewrite !(builtin_rate_test cases _ rate) by (try assumption; cbn; tauto);
      reflexivity. }
  split; [ exact Hret | ].
  intros Hc.
  destruct (_calculate_risk_level EnhancedMOHScraper__init__ disease cases deaths)
    as [level | ex] eqn:Hcalc.
  - f_equal. apply Hret. reflexivity.
  - exfalso. unfold _calculate_risk_level in Hcalc.
    destruct (risk_thresholds EnhancedMOHScraper__init__ !! disease); [ | discriminate ].
    destruct (cases_per_100k_returns cases Hc) as [rate Hr].
    rewrite Hr in Hcalc. discriminate.
Qed.

Lemma rate_normalization_noop_below_overflow_witness :
  "Medium" = calculate_risk_level_raw_count
               EnhancedMOHScraper__init__ "diarrhoea" 35 2 /\
  _calculate_risk_level EnhancedMOHScraper__init__ "diarrhoea" 35 2
  = Ok (calculate_risk_level_raw_count
          EnhancedMOHScraper__init__ "diarrhoea" 35 2).
Proof.
  split.
  - apply (proj1 (rate_normalization_noop_below_overflow "diarrhoea" 35 2)).
    vm_compute. reflexivity.
  - apply (proj2 (rate_normalization_noop_below_overflow "diarrhoea" 35 2)).
    vm_compute. reflexivity.
Defined.

End RiskLevelProperties.

(** * Further properties *)

(** ** pcat.py: further properties of the two classifiers *)

Section PcatMoreProperties.
Import Pcat PcatMore.

(** The severity of the meningitis verdict, read off the flags. *)
Lemma meningitis_severity_classify (w : MeningitisWorkflow) :
  meningitis_severity (meningitis_classify w)
  = if coma w || stiff_neck w || bulging_fontanelle w || negb (lp_clear w)
    then 3%nat
    else if csf_wbc_raised w || gram_positive w then 2%nat
    else if test_done w then 1%nat else 0%nat.
Proof.
  unfold meningitis_classify.
  destruct (coma w || stiff_neck w || bulging_fontanelle w || negb (lp_clear w));
    [ reflexivity | ].
  destruct (csf_wbc_raised w || gram_positive w); [ reflexivity | ].
  destruct (test_done w); reflexivity.
Qed.

(** Case analysis on a sign of the first workflow: when it is set, the
    hypothesis sets it in the second. *)
Ltac sign_set b H := destruct b; [ rewrite (H eq_refl) | ].

(** X1. More signs never give a milder meningitis verdict: when every
    sign of one workflow is a sign of another, the verdict of the other is
    at least as grave. *)
Theorem meningitis_more_signs_never_milder (w w' : MeningitisWorkflow) :
  meningitis_signs_le w w' ->
  (meningitis_severity (meningitis_classify w)
   <= meningitis_severity (meningitis_classify w'))%nat.
Proof.
  intros (Hc & Hs & Hb & Hl & Hw & Hg & Ht).
  rewrite !meningitis_severity_classify.
  sign_set (coma w) Hc; sign_set (stiff_neck w) Hs;
  sign_set (bulging_fontanelle w) Hb;
  (destruct (lp_clear w); [ | rewrite (Hl eq_refl) ]);
  sign_set (csf_wbc_raised w) Hw; sign_set (gram_positive w) Hg;
  sign_set (test_done w) Ht;
  cbn [orb negb]; rewrite ?orb_true_r; cbn [orb negb];
  repeat match goal with
         | |- context [if ?b then _ else _] => destruct b; cbn [orb negb]
         end; lia.
Qed.

Lemma meningitis_more_signs_never_milder_witness :
  (meningitis_severity (meningitis_classify MeningitisWorkflow_default)
   <= meningitis_severity
        (meningitis_classify
           {| coma := false; stiff_neck := true; bulging_fontanelle := false;
              lp_clear := true; csf_wbc_raised := false;
              gram_positive := false; test_done := true |}))%nat.
Proof.
  apply meningitis_more_signs_never_milder.
  unfold meningitis_signs_le. cbn. repeat split; intros; congruence.
Defined.

(** X2. The dictionary [get_symptoms_dict] returns holds the seven
    constructor parameters and nothing else, and building a workflow back
    from it gives the workflow it came from. *)
Theorem meningitis_symptoms_dict_round_trip (w : MeningitisWorkflow) :
  MeningitisWorkflow__init__ (meningitis_get_symptoms_dict w) = Some w /\
  (forall k : string,
     is_Some (meningitis_get_symptoms_dict w !! k)
     <-> In k meningitis_parameters).
Proof.
  destruct w as [c s b l g p t]. split.
  - vm_compute. reflexivity.
  - intros k. unfold meningitis_get_symptoms_dict, meningitis_parameters.
    cbn [coma stiff_neck bulging_fontanelle lp_clear csf_wbc_raised
         gram_positive test_done In].
    rewrite !lookup_insert_is_Some, lookup_empty, is_Some_alt.
    intuition congruence.
Qed.

(** The severity of the diarrhoea verdict, read off the flags; the age
    plays no part in it. *)
Lemma diarrhoea_severity_classify (w : DiarrhoeaWorkflow) :
  diarrhoea_severity (diarrhoea_classify w)
  = if flag w "weak_or_absent_pulse" && flag w "cold_hands_temp_gradient"
       && flag w "capillary_refill_gt_3s" && flag w "slow_skin_pinch"
    then 3%nat
    else if flag w "sunken_eyes" || flag w "unable_to_drink"
            || flag w "skin_pinch_gt_2s"
    then 2%nat
    else if Z.b2z (flag w "sunken_eyes") + Z.b2z (flag w "restless_irritable")
            + Z.b2z (flag w "skin_pinch_1_2s") >=? 2
    then 1%nat else 0%nat.
Proof.
  rewrite diarrhoea_classify_unfold.
  destruct (flag w "weak_or_absent_pulse" && flag w "cold_hands_temp_gradient"
            && flag w "capillary_refill_gt_3s" && flag w "slow_skin_pinch");
    [ reflexivity | ].
  destruct (flag w "sunken_eyes" || flag w "unable_to_drink"
            || flag w "skin_pinch_gt_2s");
    [ destruct (age w >=? 12); reflexivity | ].
  destruct (Z.b2z (flag w "sunken_eyes") + Z.b2z (flag w "restless_irritable")
            + Z.b2z (flag w "skin_pinch_1_2s") >=? 2); reflexivity.
Qed.

(** X3. More signs never give a milder diarrhoea verdict, whatever the
    two ages: when every flag set in one workflow is set in another, the
    verdict of the other is at least as grave. *)
Theorem diarrhoea_more_signs_never_milder (w w' : DiarrhoeaWorkflow) :
  diarrhoea_signs_le w w' ->
  (diarrhoea_severity (diarrhoea_classify w)
   <= diarrhoea_severity (diarrhoea_classify w'))%nat.
Proof.
  intros Hle. rewrite !diarrhoea_severity_classify.
  pose proof (Hle "weak_or_absent_pulse") as H1.
  pose proof (Hle "cold_hands_temp_gradient") as H2.
  pose proof (Hle "capillary_refill_gt_3s") as H3.
  pose proof (Hle "slow_skin_pinch") as H4.
  pose proof (Hle "sunken_eyes") as H5.
  pose proof (Hle "unable_to_drink") as H6.
  pose proof (Hle "skin_pinch_gt_2s") as H7.
  pose proof (Hle "restless_irritable") as H8.
  pose proof (Hle "skin_pinch_1_2s") as H9.
  clear Hle.
  assert (Hshock :
    flag w "weak_or_absent_pulse" && flag w "cold_hands_temp_gradient"
    && flag w "capillary_refill_gt_3s" && flag w "slow_skin_pinch" = true ->
    flag w' "weak_or_absent_pulse" && flag w' "cold_hands_temp_gradient"
    && flag w' "capillary_refill_gt_3s" && flag w' "slow_skin_pinch" = true).
  { rewrite !andb_true_iff. tauto. }
  assert (Hsevere :
    flag w "sunken_eyes" || flag w "unable_to_drink"
    || flag w "skin_pinch_gt_2s" = true ->
    flag w' "sunken_eyes" || flag w' "unable_to_drink"
    || flag w' "skin_pinch_gt_2s" = true).
  { rewrite !orb_true_iff. tauto. }
  assert (Hsome :
    Z.b2z (flag w "sunken_eyes") + Z.b2z (flag w "restless_irritable")
    + Z.b2z (flag w "skin_pinch_1_2s")
    <= Z.b2z (flag w' "sunken_eyes") + Z.b2z (flag w' "restless_irritable")
       + Z.b2z (flag w' "skin_pinch_1_2s")).
  { clear Hshock Hsevere H1 H2 H3 H4 H6 H7.
    sign_set (flag w "sunken_eyes") H5;
    sign_set (flag w "restless_irritable") H8;
    sign_set (flag w "skin_pinch_1_2s") H9;
    repeat match goal with
           | |- context [Z.b2z ?b] => destruct b; cbn [Z.b2z]
           end; lia. }
  destruct (flag w "weak_or_absent_pulse" && flag w "cold_hands_temp_gradient"
            && flag w "capillary_refill_gt_3s" && flag w "slow_skin_pinch").
  { rewrite (Hshock eq_refl). lia. }
  destruct (flag w' "weak_or_absent_pulse" && flag w' "cold_hands_temp_gradient"
            && flag w' "capillary_refill_gt_3s" && flag w' "slow_skin_pinch").
  { repeat match goal with
           | |- context [if ?b then _ else _] => destruct b
           end; lia. }
  destruct (flag w "sunken_eyes" || flag w "unable_to_drink"
            || flag w "skin_pinch_gt_2s").
  { rewrite (Hsevere eq_refl). lia. }
  destruct (flag w' "sunken_eyes" || flag w' "unable_to_drink"
            || flag w' "skin_pinch_gt_2s").
  { destruct (_ >=? 2); lia. }
  destruct (Z.geb_spec (Z.b2z (flag w "sunken_eyes")
                        + Z.b2z (flag w "restless_irritable")
                        + Z.b2z (flag w "skin_pinch_1_2s")) 2);
    destruct (Z.geb_spec (Z.b2z (flag w' "sunken_eyes")
                          + Z.b2z (flag w' "restless_irritable")
                          + Z.b2z (flag w' "skin_pinch_1_2s")) 2); lia.
Qed.

Lemma diarrhoea_more_signs_never_milder_witness :
  (diarrhoea_severity
     (diarrhoea_classify
        {| age := 9; symptoms := <["restless_irritable" := true]> ∅ |})
   <= diarrhoea_severity
        (diarrhoea_classify
           {| age := 30;
              symptoms := <["restless_irritable" := true]>
                            (<["skin_pinch_1_2s" := true]> ∅) |}))%nat.
Proof.
  apply diarrhoea_more_signs_never_milder.
  intros k. unfold flag, Py.get. cbn [symptoms].
  destruct (decide (k = "restless_irritable")) as [-> | Hk].
  - intros _. vm_compute. reflexivity.
  - rewrite lookup_insert_ne, lookup_empty by congruence. discriminate.
Defined.

(** X4. The shock signs count only all four together: two workflows of
    the same age that agree on the five other flags, neither with all four
    shock signs, get the same verdict; with none of the five other flags
    set that verdict is No Dehydration, even with three shock signs. *)
Theorem diarrhoea_shock_signs_only_together (w w' : DiarrhoeaWorkflow) :
  ~ all_shock_signs w ->
  (~ all_shock_signs w' -> age w = age w' ->
   (forall k : string,
      In k ["sunken_eyes"; "unable_to_drink"; "skin_pinch_gt_2s";
            "restless_irritable"; "skin_pinch_1_2s"] ->
      flag w k = flag w' k) ->
   diarrhoea_classify w = diarrhoea_classify w') /\
  ((forall k : string,
      In k ["sunken_eyes"; "unable_to_drink"; "skin_pinch_gt_2s";
            "restless_irritable"; "skin_pinch_1_2s"] ->
      flag w k = false) ->
   diarrhoea_classify w = NO_DEHYDRATION).
Proof.
  intros Hw.
  assert (Hnot : forall v : DiarrhoeaWorkflow,
            ~ all_shock_signs v ->
            flag v "weak_or_absent_pulse" && flag v "cold_hands_temp_gradient"
            && flag v "capillary_refill_gt_3s" && flag v "slow_skin_pinch"
            = false).
  { intros v Hv. apply not_true_is_false. intros Hall. apply Hv.
    unfold all_shock_signs. rewrite !andb_true_iff in Hall. tauto. }
  split.
  - intros Hw' Hage Hsame. rewrite !diarrhoea_classify_unfold.
    rewrite (Hnot w Hw), (Hnot w' Hw'), Hage.
    rewrite !(Hsame _) by (cbn; tauto). reflexivity.
  - intros Hnone. rewrite diarrhoea_classify_unfold, (Hnot w Hw).
    rewrite !(Hnone _) by (cbn; tauto). reflexivity.
Qed.

Lemma diarrhoea_shock_signs_only_together_witness :
  let w :=
    {| age := 8;
       symptoms := <["weak_or_absent_pulse" := true]>
                     (<["cold_hands_temp_gradient" := true]>
                     (<["capillary_refill_gt_3s" := true]> ∅)) |} in
  let w' := {| age := 8; symptoms := <["slow_skin_pinch" := true]> ∅ |} in
  diarrhoea_classify w = diarrhoea_classify w' /\
  diarrhoea_classify w = NO_DEHYDRATION.
Proof.
  intros w w'.
  assert (Hw : ~ all_shock_signs w).
  { intros (_ & _ & _ & Hpinch). vm_compute in Hpinch. discriminate Hpinch. }
  assert (Hw' : ~ all_shock_signs w').
  { intros (Hpulse & _). vm_compute in Hpulse. discriminate Hpulse. }
  split.
  - apply (proj1 (diarrhoea_shock_signs_only_together w w' Hw) Hw' eq_refl).
    intros k Hk. cbn in Hk.
    destruct Hk as [<- | [<- | [<- | [<- | [<- | []]]]]]; vm_compute; reflexivity.
  - apply (proj2 (diarrhoea_shock_signs_only_together w w' Hw)).
    intros k Hk. cbn in Hk.
    destruct Hk as [<- | [<- | [<- | [<- | [<- | []]]]]]; vm_compute; reflexivity.
Defined.

(** X5. The age matters to the Severe Dehydration verdict only, and
    there only through the side of 12 months it lies on: two ages on the
    same side give the same verdict for the same symptoms, and a verdict
    that is not Severe Dehydration is the verdict at every age. *)
Theorem diarrhoea_age_matters_only_when_severe
    (a a' : Z) (s : gmap string bool) :
  ((12 <= a <-> 12 <= a') ->
   diarrhoea_classify {| age := a; symptoms := s |}
   = diarrhoea_classify {| age := a'; symptoms := s |}) /\
  (diarrhoea_severity (diarrhoea_classify {| age := a; symptoms := s |})
   <> 2%nat ->
   diarrhoea_classify {| age := a; symptoms := s |}
   = diarrhoea_classify {| age := a'; symptoms := s |}).
Proof.
  split.
  - intros Hside. rewrite !diarrhoea_classify_unfold. cbn [age].
    change (flag {| age := a; symptoms := s |}) with (flag {| age := a'; symptoms := s |}).
    replace (a >=? 12) with (a' >=? 12); [ reflexivity | ].
    destruct (Z.geb_spec a 12), (Z.geb_spec a' 12); lia || reflexivity.
  - rewrite diarrhoea_severity_classify, !diarrhoea_classify_unfold. cbn [age].
    change (flag {| age := a; symptoms := s |}) with (flag {| age := a'; symptoms := s |}).
    destruct (flag _ "weak_or_absent_pulse" && flag _ "cold_hands_temp_gradient"
              && flag _ "capillary_refill_gt_3s" && flag _ "slow_skin_pinch");
      [ reflexivity | ].
    destruct (flag _ "sunken_eyes" || flag _ "unable_to_drink"
              || flag _ "skin_pinch_gt_2s"); [ congruence | reflexivity ].
Qed.

Lemma diarrhoea_age_matters_only_when_severe_witness :
  diarrhoea_classify
    {| age := 12; symptoms := <["sunken_eyes" := true]> ∅ |}
  = diarrhoea_classify
      {| age := 59; symptoms := <["sunken_eyes" := true]> ∅ |} /\
  diarrhoea_classify
    {| age := 3; symptoms := <["restless_irritable" := true]> ∅ |}
  = diarrhoea_classify
      {| age := 40; symptoms := <["restless_irritable" := true]> ∅ |}.
Proof.
  split.
  - apply (proj1 (diarrhoea_age_matters_only_when_severe 12 59 _)). lia.
  - apply (proj2 (diarrhoea_age_matters_only_when_severe 3 40 _)).
    vm_compute. discriminate.
Defined.

(** X6. The dictionary [classify_and_save] collects holds the nine keys
    the classifier reads and no other, and classifying it gives the verdict
    of the dictionary it was collected from. *)
Theorem symptoms_collected_same_verdict
    (a : Z) (symptom_vars : gmap string bool) :
  diarrhoea_classify {| age := a; symptoms := symptoms_collected symptom_vars |}
  = diarrhoea_classify {| age := a; symptoms := symptom_vars |} /\
  (forall k : string,
     is_Some (symptoms_collected symptom_vars !! k) <-> In k diarrhoea_keys).
Proof.
  assert (Hget : forall k : string,
            In k diarrhoea_keys ->
            Py.get (symptoms_collected symptom_vars) k false
            = Py.get symptom_vars k false).
  { intros k Hk. unfold Py.get, symptoms_collected, diarrhoea_keys in *.
    cbn [fold_left]. cbn [In] in Hk.
    repeat (destruct Hk as [<- | Hk];
            [ rewrite ?lookup_insert_eq;
              repeat (rewrite lookup_insert_ne by (intros Hn; discriminate Hn));
              rewrite ?lookup_insert_eq; reflexivity | ]).
    destruct Hk. }
  split.
  - unfold diarrhoea_classify. cbn [symptoms age].
    rewrite !Hget by (unfold diarrhoea_keys; cbn; tauto). reflexivity.
  - intros k. unfold symptoms_collected, diarrhoea_keys.
    cbn [fold_left In].
    rewrite !lookup_insert_is_Some, lookup_empty, is_Some_alt.
    intuition congruence.
Qed.

End PcatMoreProperties.

(** ** pcat.py: the alert check *)

Section AlertProperties.
Import PyDict Alerts.

Lemma or_else_true (o : outbreak) (t : alert_threshold) :
  or_else (value_ge (Py.get o "cases" (VInt 0)) (alert_cases t))
          (value_ge (Py.get o "deaths" (VInt 0)) (alert_deaths t))
  = Return true -> reaches o t.
Proof.
  unfold or_else, value_ge, reaches.
  destruct (Py.get o "cases" (VInt 0)) as [ | c ]; [ discriminate | ].
  destruct (Z.leb_spec (alert_cases t) c).
  - intros _. left. eauto.
  - destruct (Py.get o "deaths" (VInt 0)) as [ | d ]; [ discriminate | ].
    destruct (Z.leb_spec (alert_deaths t) d); [ | discriminate ].
    intros _. right. eauto.
Qed.

(** What a returning pass of the loop body tells: the name is a [str];
    and either nothing was added, or one alert was, for a disease of the
    table whose entry the outbreak reaches, carrying the outbreak's own
    name, location and severity. *)
Lemma check_outbreak_inv (self : AlertSystem) (o : outbreak) (l : list alert) :
  check_outbreak self o = Return l ->
  exists s : string,
    o !! "disease_name" = Some (VStr s) /\
    (l = [] \/
     exists (t : alert_threshold) (a : alert),
       l = [a] /\
       alert_thresholds self !! Py.lower s = Some t /\ reaches o t /\
       a !! "alert_type" = Some (VStr "Disease Outbreak") /\
       a !! "disease" = Some (VStr s) /\
       a !! "location" = o !! "location" /\
       a !! "severity" = o !! "severity_level").
Proof.
  unfold check_outbreak, getitem. intros Hret.
  destruct (o !! "disease_name") as [ [ s | z ] | ] eqn:Hname;
    cbn [mbind outcome_bind mret outcome_ret str_lower] in Hret; try discriminate Hret.
  exists s. split; [ reflexivity | ].
  destruct (alert_thresholds self !! Py.lower s) as [ t | ] eqn:Ht;
    [ | left; congruence ].
  destruct (or_else _ _) as [ [ | ] | e ] eqn:Hhit; cbn [mbind outcome_bind mret outcome_ret str_lower] in Hret;
    [ | left; congruence | discriminate Hret ].
  apply or_else_true in Hhit.
  destruct (o !! "location") as [ loc | ] eqn:Hloc; cbn [mbind outcome_bind mret outcome_ret str_lower] in Hret;
    [ | discriminate Hret ].
  destruct (o !! "severity_level") as [ sev | ] eqn:Hsev; cbn [mbind outcome_bind mret outcome_ret str_lower] in Hret;
    [ | discriminate Hret ].
  injection Hret as <-. right. eexists t, _. split; [ reflexivity | ].
  repeat split; try assumption; vm_compute; reflexivity.
Qed.

(** X7. [check_alerts] works outbreak by outbreak, in order: the alerts
    of a batch split in two are those of the first part followed by those
    of the second, and an exception in the first part is the exception of
    the whole. *)
Theorem check_alerts_app (self : AlertSystem) (l1 l2 : list outbreak) :
  check_alerts self (l1 ++ l2)
  = (x ← check_alerts self l1; y ← check_alerts self l2; Return (x ++ y)%list).
Proof.
  induction l1 as [ | o l1 IH ]; cbn [check_alerts app].
  - cbn. destruct (check_alerts self l2); reflexivity.
  - destruct (check_outbreak self o) as [ added | e ]; cbn; [ | reflexivity ].
    rewrite IH.
    destruct (check_alerts self l1) as [ x | e ]; cbn; [ | reflexivity ].
    destruct (check_alerts self l2) as [ y | e ]; cbn; [ | reflexivity ].
    rewrite app_assoc. reflexivity.
Qed.

(** X8. Every alert [check_alerts] returns stands for an outbreak of the
    batch: one whose name, lowered, is a key of the table and whose cases
    or deaths reach that entry; the alert carries the name as the outbreak
    spells it, its location and its severity.  There are never more alerts
    than outbreaks. *)
Theorem check_alerts_sound (outbreaks : list outbreak) (alerts : list alert) :
  check_alerts AlertSystem__init__ outbreaks = Return alerts ->
  (length alerts <= length outbreaks)%nat /\
  (forall a : alert,
     In a alerts ->
     exists (o : outbreak) (s : string) (t : alert_threshold),
       In o outbreaks /\
       o !! "disease_name" = Some (VStr s) /\
       alert_thresholds AlertSystem__init__ !! Py.lower s = Some t /\
       reaches o t /\
       a !! "alert_type" = Some (VStr "Disease Outbreak") /\
       a !! "disease" = Some (VStr s) /\
       a !! "location" = o !! "location" /\
       a !! "severity" = o !! "severity_level").
Proof.
  set (self := AlertSystem__init__).
  revert alerts. induction outbreaks as [ | o rest IH ]; intros alerts;
    cbn [check_alerts].
  - intros [= <-]. split; [ reflexivity | intros a [] ].
  - destruct (check_outbreak self o) as [ added | e ] eqn:Ho; cbn;
      [ | discriminate ].
    destruct (check_alerts self rest) as [ more | e ] eqn:Hrest; cbn;
      [ | discriminate ].
    intros [= <-]. destruct (IH more eq_refl) as [Hlen Hin].
    destruct (check_outbreak_inv self o added Ho) as (s & Hname & Hadded).
    split.
    + rewrite length_app. cbn [length].
      destruct Hadded as [-> | (t & a & -> & _)]; cbn [length]; lia.
    + intros a Ha. apply in_app_or in Ha. destruct Ha as [Ha | Ha].
      * destruct Hadded as [-> | (t & a0 & -> & Ht & Hreach & Hkeys)];
          [ destruct Ha | ].
        destruct Ha as [<- | []]. exists o, s, t.
        split; [ left; reflexivity | tauto ].
      * destruct (Hin a Ha) as (o' & s' & t' & Hin' & Hrest').
        exists o', s', t'. split; [ right; assumption | assumption ].
Qed.

Lemma check_alerts_sound_witness :
  let o : outbreak :=
    <["disease_name" := VStr "Dengue"]>
    (<["location" := VStr "Mombasa"]>
    (<["severity_level" := VStr "Medium"]>
    (<["cases" := VInt 23]> (<["deaths" := VInt 0]> ∅)))) in
  exists alerts : list alert,
    check_alerts AlertSystem__init__ [o] = Return alerts /\
    (length alerts <= 1)%nat.
Proof.
  intros o.
  assert (Hok : match check_alerts AlertSystem__init__ [o] with
                | Return _ => true
                | Raised _ => false
                end = true) by (vm_compute; reflexivity).
  destruct (check_alerts AlertSystem__init__ [o]) as [ alerts | e ] eqn:Hret;
    [ | discriminate Hok ].
  exists alerts. split; [ reflexivity | ].
  exact (proj1 (check_alerts_sound [o] alerts Hret)).
Defined.

(** The loop body on a well-formed outbreak: it returns, with one alert
    when the outbreak is due one and none otherwise. *)
Lemma check_outbreak_well_formed (self : AlertSystem) (o : outbreak) :
  well_formed o ->
  exists l : list alert,
    check_outbreak self o = Return l /\
    length l = (if due (alert_thresholds self) o then 1 else 0)%nat.
Proof.
  intros ((s & Hname) & (loc & Hloc) & (sev & Hsev) & (c & Hc) & (d & Hd)).
  unfold check_outbreak, due, getitem. rewrite Hname, Hloc, Hsev, Hc, Hd.
  cbn [mbind outcome_bind mret outcome_ret str_lower].
  destruct (alert_thresholds self !! Py.lower s) as [ t | ];
    [ | eexists; split; reflexivity ].
  unfold or_else, value_ge.
  destruct (alert_cases t <=? c); cbn [orb mbind outcome_bind];
    [ eexists; split; reflexivity | ].
  destruct (alert_deaths t <=? d); cbn [mbind outcome_bind];
    eexists; split; reflexivity.
Qed.

(** X9. On a batch of well-formed outbreaks [check_alerts] raises
    nothing and returns exactly one alert for each outbreak that is due
    one. *)
Theorem check_alerts_complete (outbreaks : list outbreak) :
  Forall well_formed outbreaks ->
  exists alerts : list alert,
    check_alerts AlertSystem__init__ outbreaks = Return alerts /\
    length alerts
    = length (List.filter (due (alert_thresholds AlertSystem__init__))
                outbreaks).
Proof.
  set (self := AlertSystem__init__).
  induction 1 as [ | o rest Ho _ IH ]; cbn [check_alerts List.filter].
  - exists []. split; reflexivity.
  - destruct (check_outbreak_well_formed self o Ho) as (l & -> & Hl).
    destruct IH as (alerts & -> & Hlen).
    cbn [mbind outcome_bind]. eexists. split; [ reflexivity | ].
    rewrite length_app, Hl, Hlen.
    destruct (due (alert_thresholds self) o); reflexivity.
Qed.

Lemma check_alerts_complete_witness :
  let o1 : outbreak :=
    <["disease_name" := VStr "Cholera"]>
    (<["location" := VStr "Coastal Region"]>
    (<["severity_level" := VStr "Medium"]>
    (<["cases" := VInt 127]> (<["deaths" := VInt 2]> ∅)))) in
  let o2 : outbreak :=
    <["disease_name" := VStr "Malaria"]>
    (<["location" := VStr "Kisumu"]>
    (<["severity_level" := VStr "Low"]> ∅)) in
  exists alerts : list alert,
    check_alerts AlertSystem__init__ [o1; o2] = Return alerts /\
    length alerts = 1%nat.
Proof.
  intros o1 o2.
  assert (Hwf : Forall well_formed [o1; o2]).
  { repeat constructor; unfold is_Some; eexists; vm_compute; reflexivity. }
  destruct (check_alerts_complete [o1; o2] Hwf)
    as (alerts & Hret & Hlen).
  exists alerts. split; [ exact Hret | ].
  rewrite Hlen. vm_compute. reflexivity.
Defined.

(** Every threshold of the built-in table is positive. *)
Lemma builtin_alert_thresholds_positive (d : string) (t : alert_threshold) :
  alert_thresholds AlertSystem__init__ !! d = Some t ->
  0 < alert_cases t /\ 0 < alert_deaths t.
Proof.
  cbn [alert_thresholds AlertSystem__init__].
  rewrite !lookup_insert_Some, lookup_empty.
  intros [[_ <-] | [_ [[_ <-] | [_ [[_ <-] | [_ H]]]]]];
    [ | | | discriminate ]; cbn; lia.
Qed.

(** X10. Outbreaks without counts raise no alert: a batch in which
    every outbreak has its cases and deaths at 0 or absent, as every
    outbreak the WHO and CDC scrapers build has, gives no alert at all. *)
Theorem check_alerts_silent_without_counts
    (outbreaks : list outbreak) (alerts : list alert) :
  Forall no_counts outbreaks ->
  check_alerts AlertSystem__init__ outbreaks = Return alerts ->
  alerts = [].
Proof.
  set (self := AlertSystem__init__).
  pose proof builtin_alert_thresholds_positive as Hpos.
  intros Hzero. revert alerts.
  induction Hzero as [ | o rest [Hc Hd] _ IH ]; intros alerts;
    cbn [check_alerts].
  - intros [= <-]. reflexivity.
  - destruct (check_outbreak self o) as [ added | e ] eqn:Ho;
      cbn [mbind outcome_bind]; [ | discriminate ].
    destruct (check_alerts self rest) as [ more | e ];
      cbn [mbind outcome_bind]; [ | discriminate ].
    intros [= <-]. rewrite (IH more eq_refl), app_nil_r.
    destruct (check_outbreak_inv self o added Ho)
      as (s & _ & [-> | (t & a & _ & Ht & Hreach & _)]); [ reflexivity | ].
    exfalso. destruct (Hpos _ t Ht) as [Hpc Hpd].
    destruct Hreach as [(c & Hc' & Hle) | (d & Hd' & Hle)].
    + rewrite Hc in Hc'. injection Hc' as <-. lia.
    + rewrite Hd in Hd'. injection Hd' as <-. lia.
Qed.

Lemma check_alerts_silent_without_counts_witness :
  let o : outbreak :=
    <["disease_name" := VStr "Meningitis"]>
    (<["location" := VStr "Unknown"]>
    (<["source" := VStr "WHO"]>
    (<["description" := VStr "Meningitis emergency in Garissa"]>
    (<["severity_level" := VStr "High"]>
    (<["cases" := VInt 0]> (<["deaths" := VInt 0]> ∅)))))) in
  check_alerts AlertSystem__init__ [o] = Return [].
Proof.
  intros o.
  assert (Hok : match check_alerts AlertSystem__init__ [o] with
                | Return _ => true
                | Raised _ => false
                end = true) by (vm_compute; reflexivity).
  destruct (check_alerts AlertSystem__init__ [o]) as [ alerts | e ] eqn:Hret;
    [ | discriminate Hok ].
  f_equal.
  apply (check_alerts_silent_without_counts [o] alerts); [ | exact Hret ].
  repeat constructor.
Defined.

(** The loop body treats alike two spellings of a name that differ only
    in the case of ASCII letters. *)
Lemma check_outbreak_same_case (o : outbreak) (s s' : string) :
  Py.lower s = Py.lower s' ->
  match check_outbreak AlertSystem__init__ (<["disease_name" := VStr s]> o),
        check_outbreak AlertSystem__init__ (<["disease_name" := VStr s']> o)
  with
  | Return l, Return l' => length l = length l'
  | Raised e, Raised e' => e = e'
  | _, _ => False
  end.
Proof.
  set (self := AlertSystem__init__).
  intros Hlow. unfold check_outbreak, getitem, Py.get.
  rewrite !lookup_insert_eq.
  rewrite !(lookup_insert_ne _ "disease_name") by discriminate.
  cbn [mbind outcome_bind mret outcome_ret str_lower]. rewrite Hlow.
  destruct (alert_thresholds self !! Py.lower s') as [ t | ];
    [ | reflexivity ].
  destruct (or_else _ _) as [ [ | ] | e ]; cbn [mbind outcome_bind];
    [ | reflexivity | reflexivity ].
  destruct (o !! "location") as [ loc | ]; cbn [mbind outcome_bind];
    [ | reflexivity ].
  destruct (o !! "severity_level") as [ sev | ]; cbn [mbind outcome_bind];
    reflexivity.
Qed.

(** X11. The disease lookup of [check_alerts] ignores the case of the
    ASCII letters: two batches that differ only in the spelling of one
    outbreak's name, the two spellings being equal once every letter A to
    Z is replaced by its small letter (which is what [Py.lower] does, and
    no more), fare alike: both return, with as many alerts, or both raise
    the same exception.  Nothing is stated for spellings that differ in
    other characters. *)
Theorem check_alerts_ignores_ascii_case
    (before after : list outbreak) (o : outbreak) (s s' : string) :
  Py.lower s = Py.lower s' ->
  match check_alerts AlertSystem__init__
          (before ++ <["disease_name" := VStr s]> o :: after)%list,
        check_alerts AlertSystem__init__
          (before ++ <["disease_name" := VStr s']> o :: after)%list
  with
  | Return l, Return l' => length l = length l'
  | Raised e, Raised e' => e = e'
  | _, _ => False
  end.
Proof.
  intros Hlow.
  induction before as [ | o' before IH ]; cbn [app check_alerts].
  - pose proof (check_outbreak_same_case o s s' Hlow) as Hbody.
    destruct (check_outbreak AlertSystem__init__ (<["disease_name" := VStr s]> o))
      as [ l | e ];
      destruct (check_outbreak AlertSystem__init__
                  (<["disease_name" := VStr s']> o)) as [ l' | e' ];
      cbn [mbind outcome_bind]; try contradiction; [ | exact Hbody ].
    destruct (check_alerts AlertSystem__init__ after) as [ more | e ];
      cbn [mbind outcome_bind]; [ | reflexivity ].
    rewrite !length_app, Hbody. reflexivity.
  - destruct (check_outbreak AlertSystem__init__ o') as [ added | e ];
      cbn [mbind outcome_bind]; [ | reflexivity ].
    destruct (check_alerts AlertSystem__init__
                (before ++ <["disease_name" := VStr s]> o :: after))
      as [ l | e ];
      destruct (check_alerts AlertSystem__init__
                  (before ++ <["disease_name" := VStr s']> o :: after))
        as [ l' | e' ];
      cbn [mbind outcome_bind]; try contradiction; [ | exact IH ].
    rewrite !length_app, IH. reflexivity.
Qed.

Lemma check_alerts_ignores_ascii_case_witness :
  let o : outbreak :=
    <["location" := VStr "Turkana"]>
    (<["severity_level" := VStr "High"]> (<["cases" := VInt 45]> ∅)) in
  match check_alerts AlertSystem__init__
          ([] ++ <["disease_name" := VStr "MENINGITIS"]> o :: [])%list,
        check_alerts AlertSystem__init__
          ([] ++ <["disease_name" := VStr "Meningitis"]> o :: [])%list
  with
  | Return l, Return l' => length l = length l'
  | Raised e, Raised e' => e = e'
  | _, _ => False
  end.
Proof.
  intros o.
  apply (check_alerts_ignores_ascii_case [] [] o "MENINGITIS" "Meningitis").
  vm_compute. reflexivity.
Defined.

(** X12. One outbreak without a name spoils the batch: if the outbreaks
    before it pass, [check_alerts] raises [KeyError('disease_name')] and
    returns none of the alerts they were due; and whatever comes before,
    the call raises. *)
Theorem check_alerts_missing_name
    (self : AlertSystem) (before after : list outbreak) (o : outbreak) :
  o !! "disease_name" = None ->
  (exists e : exc, check_alerts self (before ++ o :: after) = Raised e) /\
  (forall alerts : list alert,
     check_alerts self before = Return alerts ->
     check_alerts self (before ++ o :: after)
     = Raised (KeyError "disease_name")).
Proof.
  intros Hname.
  assert (Ho : check_outbreak self o = Raised (KeyError "disease_name")).
  { unfold check_outbreak, getitem. rewrite Hname. reflexivity. }
  assert (Hgen : forall l : list outbreak,
            match check_alerts self l with
            | Return _ =>
                check_alerts self (l ++ o :: after)
                = Raised (KeyError "disease_name")
            | Raised e => check_alerts self (l ++ o :: after) = Raised e
            end).
  { induction l as [ | o' l IH ]; cbn [check_alerts app].
    - rewrite Ho. reflexivity.
    - destruct (check_outbreak self o') as [ added | e ];
        cbn [mbind outcome_bind]; [ | reflexivity ].
      destruct (check_alerts self l) as [ more | e ];
        cbn [mbind outcome_bind]; rewrite IH; reflexivity. }
  specialize (Hgen before). split.
  - destruct (check_alerts self before); eauto.
  - intros alerts Hret. rewrite Hret in Hgen. exact Hgen.
Qed.

Lemma check_alerts_missing_name_witness :
  let good : outbreak :=
    <["disease_name" := VStr "Dengue"]>
    (<["location" := VStr "Mombasa"]>
    (<["severity_level" := VStr "Medium"]> (<["cases" := VInt 23]> ∅))) in
  let bad : outbreak := <["location" := VStr "Nairobi"]> ∅ in
  check_alerts AlertSystem__init__ ([good] ++ bad :: [])
  = Raised (KeyError "disease_name").
Proof.
  intros good bad.
  assert (Hok : match check_alerts AlertSystem__init__ [good] with
                | Return _ => true
                | Raised _ => false
                end = true) by (vm_compute; reflexivity).
  destruct (check_alerts AlertSystem__init__ [good]) as [ alerts | e ] eqn:Hret;
    [ | discriminate Hok ].
  apply (proj2 (check_alerts_missing_name AlertSystem__init__ [good] [] bad
                  ltac:(vm_compute; reflexivity)) alerts).
  exact Hret.
Defined.

End AlertProperties.

(** ** integration_example.py: the age-specific alert check *)

Section AgeSpecificAlertProperties.
Import PyDict Alerts MohRiskScraper.

Lemma getitem_Some {V} (d : gmap string V) (k : string) (v : V) :
  d !! k = Some v -> getitem d k = Return v.
Proof. unfold getitem. intros ->. reflexivity. Qed.

(** The built-in table has both age groups for both diseases, so the
    group's entry is always found. *)
Lemma builtin_group_lookup (min_age : Z) (disease : string) :
  match age_specific_thresholds EnhancedAlertSystem__init__ !! disease with
  | Some by_group =>
      exists t : alert_threshold,
        getitem by_group
          (if min_age <=? 12 then "1-12_months" else "13-60_months")
        = Return t /\
        age_group_table EnhancedAlertSystem__init__ min_age !! disease = Some t
  | None =>
      age_group_table EnhancedAlertSystem__init__ min_age !! disease = None
  end.
Proof.
  unfold age_group_table. rewrite lookup_omap.
  cbn [age_specific_thresholds EnhancedAlertSystem__init__].
  destruct (decide (disease = "meningitis")) as [-> | Hm].
  - rewrite lookup_insert_eq. cbn [mbind option_bind].
    destruct (min_age <=? 12); eexists; split; vm_compute; reflexivity.
  - rewrite lookup_insert_ne by congruence.
    destruct (decide (disease = "diarrhoea")) as [-> | Hd].
    + rewrite lookup_insert_eq. cbn [mbind option_bind].
      destruct (min_age <=? 12); eexists; split; vm_compute; reflexivity.
    + rewrite lookup_insert_ne, lookup_empty by congruence. reflexivity.
Qed.

(** The loop body on a well-formed outbreak, under the built-in table. *)
Lemma check_age_specific_outbreak_well_formed
    (mgr : AgeConstraintManager) (min_age max_age : Z) (o : outbreak) :
  well_formed o ->
  exists l : list alert,
    check_age_specific_outbreak (EnhancedAlertSystem_with mgr) min_age max_age o
    = Return l /\
    length l
    = (if due (age_group_table EnhancedAlertSystem__init__ min_age) o
       then 1 else 0)%nat.
Proof.
  intros ((s & Hname) & (loc & Hloc) & (sev & Hsev) & (c & Hc) & (d & Hd)).
  unfold check_age_specific_outbreak, due.
  cbn [age_specific_thresholds EnhancedAlertSystem_with].
  rewrite !(getitem_Some o _ _ Hname), !(getitem_Some o _ _ Hloc),
    !(getitem_Some o _ _ Hsev), Hname, Hc, Hd.
  cbn [mbind outcome_bind mret outcome_ret str_lower].
  pose proof (builtin_group_lookup min_age (Py.lower s)) as Hgroup.
  destruct (age_specific_thresholds EnhancedAlertSystem__init__ !! Py.lower s)
    as [ by_group | ].
  - cbv zeta. destruct Hgroup as (t & -> & ->). cbn [mbind outcome_bind].
    unfold or_else, value_ge.
    destruct (alert_cases t <=? c); cbn [orb mbind outcome_bind];
      [ eexists; split; reflexivity | ].
    destruct (alert_deaths t <=? d); cbn [mbind outcome_bind];
      eexists; split; reflexivity.
  - rewrite Hgroup. eexists; split; reflexivity.
Qed.

(** On well-formed outbreaks the check returns, with one alert for each
    outbreak due one under the thresholds of the age group. *)
Lemma check_age_specific_alerts_count
    (mgr : AgeConstraintManager) (outbreaks : list outbreak) :
  Forall well_formed outbreaks ->
  exists alerts : list alert,
    check_age_specific_alerts (EnhancedAlertSystem_with mgr) outbreaks
    = Return alerts /\
    length alerts
    = length (List.filter
                (due (age_group_table EnhancedAlertSystem__init__
                        (mgr_min_age_months mgr)))
                outbreaks).
Proof.
  unfold check_age_specific_alerts, get_age_range.
  cbn [age_manager EnhancedAlertSystem_with].
  induction 1 as [ | o rest Ho _ IH ];
    cbn [check_age_specific_loop List.filter].
  - exists []. split; reflexivity.
  - destruct (check_age_specific_outbreak_well_formed
                mgr (mgr_min_age_months mgr) (mgr_max_age_months mgr) o Ho)
      as (l & -> & Hl).
    destruct IH as (alerts & -> & Hlen).
    cbn [mbind outcome_bind]. eexists. split; [ reflexivity | ].
    rewrite length_app, Hl, Hlen.
    destruct (due _ o); reflexivity.
Qed.

(** X13. On well-formed outbreaks [check_age_specific_alerts] raises
    nothing, and which outbreaks get an alert depends on the lowest age of
    the manager alone, through the side of 12 months it lies on: two
    managers whose lowest ages lie on the same side return as many alerts,
    whatever their highest ages; with the manager the constructor makes
    (1 to 60 months) the infant thresholds apply. *)
Theorem check_age_specific_alerts_by_lowest_age
    (mgr mgr' : AgeConstraintManager) (outbreaks : list outbreak) :
  (mgr_min_age_months mgr <= 12 <-> mgr_min_age_months mgr' <= 12) ->
  Forall well_formed outbreaks ->
  exists alerts alerts' : list alert,
    check_age_specific_alerts (EnhancedAlertSystem_with mgr) outbreaks
    = Return alerts /\
    check_age_specific_alerts (EnhancedAlertSystem_with mgr') outbreaks
    = Return alerts' /\
    length alerts = length alerts' /\
    length alerts
    = length (List.filter
                (due (age_group_table EnhancedAlertSystem__init__
                        (mgr_min_age_months mgr)))
                outbreaks).
Proof.
  intros Hside Hwf.
  destruct (check_age_specific_alerts_count mgr outbreaks Hwf)
    as (alerts & Hret & Hlen).
  destruct (check_age_specific_alerts_count mgr' outbreaks Hwf)
    as (alerts' & Hret' & Hlen').
  exists alerts, alerts'.
  split; [ assumption | split; [ assumption | split; [ | assumption ] ] ].
  rewrite Hlen, Hlen'. unfold age_group_table.
  replace (mgr_min_age_months mgr' <=? 12) with (mgr_min_age_months mgr <=? 12);
    [ reflexivity | ].
  destruct (Z.leb_spec (mgr_min_age_months mgr) 12),
    (Z.leb_spec (mgr_min_age_months mgr') 12); lia || reflexivity.
Qed.

Lemma check_age_specific_alerts_by_lowest_age_witness :
  let o : outbreak :=
    <["disease_name" := VStr "Meningitis"]>
    (<["location" := VStr "Turkana County"]>
    (<["severity_level" := VStr "High"]>
    (<["cases" := VInt 6]> (<["deaths" := VInt 0]> ∅)))) in
  exists alerts alerts' : list alert,
    check_age_specific_alerts
      (EnhancedAlertSystem_with AgeConstraintManager_default) [o]
    = Return alerts /\
    check_age_specific_alerts
      (EnhancedAlertSystem_with (AgeConstraintManager__init__ 6 24)) [o]
    = Return alerts' /\
    length alerts = length alerts' /\
    length alerts = 1%nat.
Proof.
  intros o.
  assert (Hwf : Forall well_formed [o]).
  { repeat constructor; unfold is_Some; eexists; vm_compute; reflexivity. }
  destruct (check_age_specific_alerts_by_lowest_age
              AgeConstraintManager_default (AgeConstraintManager__init__ 6 24)
              [o] ltac:(cbn; lia) Hwf)
    as (alerts & alerts' & Hret & Hret' & Hsame & Hlen).
  exists alerts, alerts'.
  split; [ exact Hret | split; [ exact Hret' | split; [ exact Hsame | ] ] ].
  rewrite Hlen. vm_compute. reflexivity.
Defined.

(** An outbreak due an alert under the thresholds of the older group is
    due one under those of the infants. *)
Lemma due_older_then_due_infant (min_age min_age' : Z) (o : outbreak) :
  min_age <= 12 < min_age' ->
  due (age_group_table EnhancedAlertSystem__init__ min_age') o = true ->
  due (age_group_table EnhancedAlertSystem__init__ min_age) o = true.
Proof.
  intros Hmin. unfold due.
  destruct (o !! "disease_name") as [ [ s | z ] | ]; try discriminate.
  unfold age_group_table. rewrite !lookup_omap.
  replace (min_age <=? 12) with true by (symmetry; apply Z.leb_le; lia).
  replace (min_age' <=? 12) with false by (symmetry; apply Z.leb_gt; lia).
  cbn [age_specific_thresholds EnhancedAlertSystem__init__].
  destruct (decide (Py.lower s = "meningitis")) as [-> | Hm].
  - rewrite lookup_insert_eq. cbn [mbind option_bind].
    change (_ !! "13-60_months") with (Some {| alert_cases := 8; alert_deaths := 1 |}).
    change (_ !! "1-12_months") with (Some {| alert_cases := 5; alert_deaths := 1 |}).
    cbn [alert_cases alert_deaths].
    destruct (Py.get o "cases" (VInt 0)) as [ | c ]; [ discriminate | ].
    destruct (Py.get o "deaths" (VInt 0)) as [ | d ]; [ discriminate | ].
    rewrite !orb_true_iff, !Z.leb_le. lia.
  - rewrite lookup_insert_ne by congruence.
    destruct (decide (Py.lower s = "diarrhoea")) as [-> | Hd].
    + rewrite lookup_insert_eq. cbn [mbind option_bind].
      change (_ !! "13-60_months") with (Some {| alert_cases := 20; alert_deaths := 2 |}).
      change (_ !! "1-12_months") with (Some {| alert_cases := 15; alert_deaths := 2 |}).
      cbn [alert_cases alert_deaths].
      destruct (Py.get o "cases" (VInt 0)) as [ | c ]; [ discriminate | ].
      destruct (Py.get o "deaths" (VInt 0)) as [ | d ]; [ discriminate | ].
      rewrite !orb_true_iff, !Z.leb_le. lia.
    + rewrite lookup_insert_ne, lookup_empty by congruence. discriminate.
Qed.

Lemma filter_length_le {A} (f g : A -> bool) (l : list A) :
  (forall x : A, f x = true -> g x = true) ->
  (length (List.filter f l) <= length (List.filter g l))%nat.
Proof.
  intros Hfg. induction l as [ | x l IH ]; cbn [List.filter]; [ lia | ].
  destruct (f x) eqn:Hf.
  - rewrite (Hfg x Hf). cbn [length]. lia.
  - destruct (g x); cbn [length]; lia.
Qed.

(** X14. The infant thresholds are the more sensitive ones: on the same
    well-formed outbreaks, a manager whose lowest age is above 12 months
    never gets more alerts than one whose lowest age is 12 months or
    less. *)
Theorem infant_thresholds_alert_at_least_as_often
    (mgr mgr' : AgeConstraintManager) (outbreaks : list outbreak) :
  mgr_min_age_months mgr <= 12 < mgr_min_age_months mgr' ->
  Forall well_formed outbreaks ->
  exists alerts alerts' : list alert,
    check_age_specific_alerts (EnhancedAlertSystem_with mgr) outbreaks
    = Return alerts /\
    check_age_specific_alerts (EnhancedAlertSystem_with mgr') outbreaks
    = Return alerts' /\
    (length alerts' <= length alerts)%nat.
Proof.
  intros Hmin Hwf.
  destruct (check_age_specific_alerts_count mgr outbreaks Hwf)
    as (alerts & Hret & Hlen).
  destruct (check_age_specific_alerts_count mgr' outbreaks Hwf)
    as (alerts' & Hret' & Hlen').
  exists alerts, alerts'. split; [ assumption | split; [ assumption | ] ].
  rewrite Hlen, Hlen'. apply filter_length_le.
  intros o. apply due_older_then_due_infant. assumption.
Qed.

Lemma infant_thresholds_alert_at_least_as_often_witness :
  let o : outbreak :=
    <["disease_name" := VStr "diarrhoea"]>
    (<["location" := VStr "Mombasa County"]>
    (<["severity_level" := VStr "Medium"]>
    (<["cases" := VInt 17]> (<["deaths" := VInt 1]> ∅)))) in
  exists alerts alerts' : list alert,
    check_age_specific_alerts
      (EnhancedAlertSystem_with AgeConstraintManager_default) [o]
    = Return alerts /\
    check_age_specific_alerts
      (EnhancedAlertSystem_with (AgeConstraintManager__init__ 13 60)) [o]
    = Return alerts' /\
    (length alerts' <= length alerts)%nat.
Proof.
  intros o.
  apply (infant_thresholds_alert_at_least_as_often
           AgeConstraintManager_default (AgeConstraintManager__init__ 13 60) [o]).
  - cbn. lia.
  - repeat constructor; unfold is_Some; eexists; vm_compute; reflexivity.
Defined.

End AgeSpecificAlertProperties.

(** ** moh_risk_scraper.py: the age filter over risk areas, runs of
    [set_age_range], and the order of the risk levels *)

Section RiskAreaProperties.
Import PyNum MohRiskScraper RiskAreas.

(** The loop of [_filter_by_age_constraints] is a filter. *)
Lemma filter_by_age_constraints_filter
    (self : EnhancedMOHScraper) (areas : list RiskArea) :
  _filter_by_age_constraints self areas
  = List.filter (fun a => _affects_target_age_group self (disease a)) areas.
Proof.
  induction areas as [ | a rest IH ]; cbn [_filter_by_age_constraints List.filter].
  - reflexivity.
  - rewrite IH. reflexivity.
Qed.

(** X15. The age filter keeps exactly the areas whose disease, lowered,
    is meningitis or diarrhoea, in the order they came in. *)
Theorem filter_by_age_constraints_keeps
    (self : EnhancedMOHScraper) (areas : list RiskArea) :
  (forall a : RiskArea,
     In a (_filter_by_age_constraints self areas) <->
     In a areas /\
     (Py.lower (disease a) = "meningitis" \/ Py.lower (disease a) = "diarrhoea")) /\
  sublist (_filter_by_age_constraints self areas) areas.
Proof.
  split.
  - intros a. rewrite filter_by_age_constraints_filter, List.filter_In.
    unfold _affects_target_age_group. rewrite in_target_diseases. tauto.
  - induction areas as [ | a rest IH ]; cbn [_filter_by_age_constraints].
    + constructor.
    + destruct (_affects_target_age_group self (disease a));
        [ apply sublist_skip | apply sublist_cons ]; exact IH.
Qed.

(** X16. The age filter is the same for every scraper state, filtering
    twice is filtering once, a batch is filtered part by part, and a batch
    of meningitis and diarrhoea areas, in any letter case, passes whole. *)
Theorem filter_by_age_constraints_stable
    (self self' : EnhancedMOHScraper) (areas areas' : list RiskArea) :
  _filter_by_age_constraints self (_filter_by_age_constraints self' areas)
  = _filter_by_age_constraints self' areas /\
  _filter_by_age_constraints self (areas ++ areas')%list
  = (_filter_by_age_constraints self areas
     ++ _filter_by_age_constraints self areas')%list /\
  (Forall (fun a => Py.lower (disease a) = "meningitis" \/
                    Py.lower (disease a) = "diarrhoea") areas ->
   _filter_by_age_constraints self areas = areas).
Proof.
  repeat split.
  - induction areas as [ | a rest IH ]; cbn [_filter_by_age_constraints].
    + reflexivity.
    + destruct (_affects_target_age_group self' (disease a)) eqn:Ha; [ | exact IH ].
      cbn [_filter_by_age_constraints].
      change (_affects_target_age_group self (disease a))
        with (_affects_target_age_group self' (disease a)).
      rewrite Ha, IH. reflexivity.
  - rewrite !filter_by_age_constraints_filter. apply List.filter_app.
  - induction 1 as [ | a rest Ha _ IH ]; cbn [_filter_by_age_constraints].
    + reflexivity.
    + apply in_target_diseases in Ha.
      unfold _affects_target_age_group. rewrite Ha, IH. reflexivity.
Qed.

Lemma filter_by_age_constraints_stable_witness :
  let area :=
    {| location := "Turkana County"; disease := "Meningitis";
       risk_level := "High"; cases := 67; deaths := 4;
       population_at_risk := 15000; geographical_coordinates := None;
       date_reported := 0; source_url := "MOH Kenya";
       additional_info := "" |} in
  _filter_by_age_constraints EnhancedMOHScraper__init__ [area] = [area].
Proof.
  intros area.
  apply (proj2 (proj2 (filter_by_age_constraints_stable
                         EnhancedMOHScraper__init__ EnhancedMOHScraper__init__
                         [area] []))).
  repeat constructor.
Defined.

(** One call of [set_age_range] keeps a valid range valid. *)
Lemma set_age_range_valid (self : AgeConstraintManager) (a b : Z) :
  valid_range self -> valid_range (snd (set_age_range self a b)).
Proof.
  unfold set_age_range, valid_range.
  destruct ((a <? 0) || (b <? a) || (b >? 120)) eqn:G; cbn [snd]; [ tauto | ].
  intros _. apply set_age_range_guard in G. cbn. lia.
Qed.

(** X17. The range stays within [0 <= min <= max <= 120] through any run
    of [set_age_range] calls on a manager that starts there, as the
    default manager does; such a manager has both its bounds in range and
    admits no age outside 0 to 120. *)
Theorem set_age_range_keeps_valid
    (self : AgeConstraintManager) (calls : list (Z * Z)) :
  valid_range AgeConstraintManager_default /\
  (valid_range self ->
   let mgr := set_age_range_all self calls in
   valid_range mgr /\
   is_age_in_range mgr (mgr_min_age_months mgr) = true /\
   is_age_in_range mgr (mgr_max_age_months mgr) = true /\
   (forall age : Z, is_age_in_range mgr age = true -> 0 <= age <= 120)).
Proof.
  split; [ unfold valid_range; cbn; lia | ].
  intros Hvalid.
  assert (Hmgr : valid_range (set_age_range_all self calls)).
  { unfold set_age_range_all. revert self Hvalid.
    induction calls as [ | c rest IH ]; intros self Hvalid; cbn [fold_left].
    - exact Hvalid.
    - apply IH, set_age_range_valid, Hvalid. }
  intros mgr. fold mgr in Hmgr. clearbody mgr.
  split; [ exact Hmgr | ].
  unfold valid_range in Hmgr. unfold is_age_in_range.
  split; [ apply andb_true_iff; rewrite !Z.leb_le; lia | ].
  split; [ apply andb_true_iff; rewrite !Z.leb_le; lia | ].
  intros age Hin. apply andb_true_iff in Hin. rewrite !Z.leb_le in Hin. lia.
Qed.

Lemma set_age_range_keeps_valid_witness :
  let mgr :=
    set_age_range_all AgeConstraintManager_default
      [(6, 24); (30, 10); (0, 121); (12, 12)] in
  valid_range mgr /\
  is_age_in_range mgr (mgr_min_age_months mgr) = true /\
  is_age_in_range mgr (mgr_max_age_months mgr) = true /\
  0 <= 12 <= 120.
Proof.
  intros mgr.
  destruct (proj2 (set_age_range_keeps_valid AgeConstraintManager_default
                     [(6, 24); (30, 10); (0, 121); (12, 12)])
              (proj1 (set_age_range_keeps_valid AgeConstraintManager_default [])))
    as (Hvalid & Hmin & Hmax & Hall).
  split; [ exact Hvalid | split; [ exact Hmin | split; [ exact Hmax | ] ] ].
  apply Hall. reflexivity.
Defined.

Lemma accepted_guard (c : Z * Z) :
  accepted c = negb ((fst c <? 0) || (snd c <? fst c) || (snd c >? 120)).
Proof.
  unfold accepted. rewrite !negb_orb, Z.gtb_ltb, <- !Z.leb_antisym. reflexivity.
Qed.

Lemma last_cons_default {A} (x d : A) (l : list A) :
  List.last (x :: l) d = List.last l x.
Proof.
  revert x d. induction l as [ | y l IH ]; intros x d; [ reflexivity | ].
  change (List.last (x :: y :: l) d) with (List.last (y :: l) d).
  rewrite !IH. reflexivity.
Qed.

(** X18. After a run of [set_age_range] calls the range is the pair of
    the last call that was accepted, or the range before the run when none
    was: rejected calls leave no trace. *)
Theorem set_age_range_last_accepted
    (self : AgeConstraintManager) (calls : list (Z * Z)) :
  get_age_range (set_age_range_all self calls)
  = List.last (List.filter accepted calls) (get_age_range self).
Proof.
  unfold set_age_range_all. revert self.
  induction calls as [ | [a b] rest IH ]; intros self;
    cbn [fold_left List.filter]; [ reflexivity | ].
  rewrite IH, accepted_guard. unfold set_age_range. cbn [fst snd].
  destruct ((a <? 0) || (b <? a) || (b >? 120)); cbn [negb snd].
  - reflexivity.
  - rewrite last_cons_default. reflexivity.
Qed.

(** X19. The constructor does not validate: a manager built with its
    lowest age above its highest admits no age at all, rejected calls leave
    it so, and the first accepted call gives it a valid range. *)
Theorem unvalidated_constructor_range
    (min_age max_age : Z) (a b : Z) :
  max_age < min_age ->
  (forall age : Z,
     is_age_in_range (AgeConstraintManager__init__ min_age max_age) age
     = false) /\
  (accepted (a, b) = false ->
   snd (set_age_range (AgeConstraintManager__init__ min_age max_age) a b)
   = AgeConstraintManager__init__ min_age max_age) /\
  (accepted (a, b) = true ->
   valid_range
     (snd (set_age_range (AgeConstraintManager__init__ min_age max_age) a b))).
Proof.
  intros Hempty. split; [ | split ].
  - intros age. unfold is_age_in_range, AgeConstraintManager__init__. cbn.
    apply andb_false_iff. rewrite !Z.leb_gt. lia.
  - rewrite accepted_guard. cbn [fst snd]. unfold set_age_range.
    destruct ((a <? 0) || (b <? a) || (b >? 120)); [ reflexivity | discriminate ].
  - rewrite accepted_guard. cbn [fst snd]. unfold set_age_range, valid_range.
    destruct ((a <? 0) || (b <? a) || (b >? 120)) eqn:G; [ discriminate | ].
    intros _. cbn. apply set_age_range_guard in G. lia.
Qed.

Lemma unvalidated_constructor_range_witness :
  is_age_in_range (AgeConstraintManager__init__ 200 3) 100 = false /\
  snd (set_age_range (AgeConstraintManager__init__ 200 3) 150 160)
  = AgeConstraintManager__init__ 200 3 /\
  valid_range (snd (set_age_range (AgeConstraintManager__init__ 200 3) 2 36)).
Proof.
  split; [ | split ].
  - apply (proj1 (unvalidated_constructor_range 200 3 0 0 ltac:(lia))).
  - apply (proj1 (proj2 (unvalidated_constructor_range 200 3 150 160 ltac:(lia)))).
    reflexivity.
  - apply (proj2 (proj2 (unvalidated_constructor_range 200 3 2 36 ltac:(lia)))).
    reflexivity.
Defined.

End RiskAreaProperties.

(** ** moh_risk_scraper.py: further properties of the risk level *)

Section RiskLevelMoreProperties.
Import PyNum MohRiskScraper RiskAreas.

(** The rank of the level, read off the two tests. *)
Lemma risk_rank_of_rate (t : thresholds) (rate : num) (deaths : Z) :
  risk_rank (risk_of_rate t rate deaths)
  = if ge_int rate (thr_cases_per_100k (high t)) || (deaths >=? thr_deaths (high t))
    then 2%nat
    else if ge_int rate (thr_cases_per_100k (medium t))
            || (deaths >=? thr_deaths (medium t))
    then 1%nat else 0%nat.
Proof.
  unfold risk_of_rate.
  destruct (ge_int rate (thr_cases_per_100k (high t)) || (deaths >=? thr_deaths (high t)));
    [ reflexivity | ].
  destruct (ge_int rate (thr_cases_per_100k (medium t))
            || (deaths >=? thr_deaths (medium t))); reflexivity.
Qed.

(** Two rates and two death counts, the second passing every test the
    first passes: the level does not go down. *)
Lemma risk_rank_mono (t : thresholds) (rate rate' : num) (deaths deaths' : Z) :
  (forall T : Z, ge_int rate T = true -> ge_int rate' T = true) ->
  deaths <= deaths' ->
  (risk_rank (risk_of_rate t rate deaths)
   <= risk_rank (risk_of_rate t rate' deaths'))%nat.
Proof.
  intros Hrate Hdeaths. rewrite !risk_rank_of_rate.
  assert (Htest : forall x : tier,
            ge_int rate (thr_cases_per_100k x) || (deaths >=? thr_deaths x) = true ->
            ge_int rate' (thr_cases_per_100k x) || (deaths' >=? thr_deaths x) = true).
  { intros x. rewrite !orb_true_iff, !Z.geb_leb, !Z.leb_le.
    intros [Hr | Hd]; [ left; apply Hrate, Hr | right; lia ]. }
  pose proof (Htest (high t)) as Hhigh. pose proof (Htest (medium t)) as Hmed.
  destruct (ge_int rate (thr_cases_per_100k (high t)) || (deaths >=? thr_deaths (high t))).
  { rewrite (Hhigh eq_refl). lia. }
  destruct (ge_int rate' (thr_cases_per_100k (high t)) || (deaths' >=? thr_deaths (high t))).
  { destruct (_ || _); lia. }
  destruct (ge_int rate (thr_cases_per_100k (medium t))
            || (deaths >=? thr_deaths (medium t))).
  { rewrite (Hmed eq_refl). lia. }
  destruct (_ || _); lia.
Qed.

(** X20. More deaths never lower the risk level, under any table: when
    the classifier returns a level for some deaths, it returns one at
    least as high for more deaths and the same cases. *)
Theorem risk_level_monotone_in_deaths
    (self : EnhancedMOHScraper) (disease level : string)
    (cases deaths deaths' : Z) :
  deaths <= deaths' ->
  _calculate_risk_level self disease cases deaths = Ok level ->
  exists level' : string,
    _calculate_risk_level self disease cases deaths' = Ok level' /\
    (risk_rank level <= risk_rank level')%nat.
Proof.
  intros Hdeaths. unfold _calculate_risk_level.
  destruct (risk_thresholds self !! disease) as [ t | ].
  - destruct (cases_per_100k cases) as [ rate | e ]; cbn [bind];
      [ | discriminate ].
    intros [= <-]. eexists. split; [ reflexivity | ].
    apply risk_rank_mono; [ tauto | assumption ].
  - intros [= <-]. eexists. split; [ reflexivity | lia ].
Qed.

Lemma risk_level_monotone_in_deaths_witness :
  exists level' : string,
    _calculate_risk_level EnhancedMOHScraper__init__ "diarrhoea" 8 6
    = Ok level' /\
    (risk_rank "Low" <= risk_rank level')%nat.
Proof.
  apply (risk_level_monotone_in_deaths
           EnhancedMOHScraper__init__ "diarrhoea" "Low" 8 0 6).
  - lia.
  - vm_compute. reflexivity.
Defined.

(** X21. With the built-in table more cases never lower the risk level:
    for two case counts below [2^1039], the larger gets a level at least
    as high as the smaller, for the same deaths. *)
Theorem risk_level_monotone_in_cases
    (disease : string) (cases cases' deaths : Z) :
  cases <= cases' -> cases' < 2 ^ 1039 ->
  exists level level' : string,
    _calculate_risk_level EnhancedMOHScraper__init__ disease cases deaths
    = Ok level /\
    _calculate_risk_level EnhancedMOHScraper__init__ disease cases' deaths
    = Ok level' /\
    (risk_rank level <= risk_rank level')%nat.
Proof.
  intros Hle Hbound. unfold _calculate_risk_level.
  destruct (risk_thresholds EnhancedMOHScraper__init__ !! disease)
    as [ t | ] eqn:Ht;
    [ | eexists _, _; split; [ reflexivity | split; [ reflexivity | lia ] ] ].
  destruct (cases_per_100k_returns cases ltac:(lia)) as [rate Hrate].
  destruct (cases_per_100k_returns cases' Hbound) as [rate' Hrate'].
  rewrite Hrate, Hrate'. cbn [bind].
  eexists _, _. split; [ reflexivity | split; [ reflexivity | ] ].
  rewrite !risk_rank_of_rate.
  destruct (builtin_table_lookup disease t Ht) as [(_ & -> & ->) | (_ & -> & ->)];
    rewrite !(builtin_rate_test cases _ rate), !(builtin_rate_test cases' _ rate')
      by (try assumption; cbn; tauto);
    repeat match goal with
           | |- context [?a <=? ?b] => destruct (Z.leb_spec a b)
           end; cbn [orb]; try lia;
    repeat match goal with
           | |- context [if ?b then _ else _] => destruct b
           end; lia.
Qed.

Lemma risk_level_monotone_in_cases_witness :
  exists level level' : string,
    _calculate_risk_level EnhancedMOHScraper__init__ "meningitis" 7 0
    = Ok level /\
    _calculate_risk_level EnhancedMOHScraper__init__ "meningitis" 13 0
    = Ok level' /\
    (risk_rank level <= risk_rank level')%nat.
Proof.
  apply (risk_level_monotone_in_cases "meningitis" 7 13 0).
  - lia.
  - vm_compute. reflexivity.
Defined.

(** X22. Rounding never hides a threshold the cases exceed: under any
    table, a case count above the High case threshold of the disease (a
    threshold from 0 to [2^52]) is classified High, unless the division
    overflows. *)
Theorem cases_above_high_threshold_are_high
    (self : EnhancedMOHScraper) (disease : string) (t : thresholds)
    (cases deaths : Z) :
  risk_thresholds self !! disease = Some t ->
  0 <= thr_cases_per_100k (high t) <= 2 ^ 52 ->
  thr_cases_per_100k (high t) < cases ->
  _calculate_risk_level self disease cases deaths = Ok "High" \/
  _calculate_risk_level self disease cases deaths = Raise OverflowError.
Proof.
  intros Ht Hrange Habove. unfold _calculate_risk_level. rewrite Ht.
  destruct (cases_per_100k cases) as [ rate | e ] eqn:Hrate; cbn [bind].
  - left. unfold risk_of_rate.
    rewrite (cases_per_100k_reaches cases _ rate Hrange Habove Hrate).
    reflexivity.
  - right. rewrite (cases_per_100k_raises cases e Hrate). reflexivity.
Qed.

Lemma cases_above_high_threshold_are_high_witness :
  _calculate_risk_level EnhancedMOHScraper__init__ "diarrhoea" 51 0 = Ok "High" \/
  _calculate_risk_level EnhancedMOHScraper__init__ "diarrhoea" 51 0
  = Raise OverflowError.
Proof.
  apply (cases_above_high_threshold_are_high
           EnhancedMOHScraper__init__ "diarrhoea"
           {| high := {| thr_cases_per_100k := 50; thr_deaths := 5 |};
              medium := {| thr_cases_per_100k := 20; thr_deaths := 2 |};
              low := {| thr_cases_per_100k := 5; thr_deaths := 0 |} |}
           51 0).
  - vm_compute. reflexivity.
  - cbn. split; [ lia | vm_compute; discriminate ].
  - cbn. lia.
Defined.

(** X23. The only way the risk classifier fails is the overflow of the
    division: it returns one of the three levels for every case count below
    [2^1039] and for every disease outside the table, and an exception it
    raises is [OverflowError]. *)
Theorem calculate_risk_level_raises_only_on_overflow
    (self : EnhancedMOHScraper) (disease : string) (cases deaths : Z) :
  (cases < 2 ^ 1039 \/ risk_thresholds self !! disease = None ->
   exists level : string,
     _calculate_risk_level self disease cases deaths = Ok level /\
     In level ["High"; "Medium"; "Low"]) /\
  (forall e : exn,
     _calculate_risk_level self disease cases deaths = Raise e ->
     e = OverflowError).
Proof.
  unfold _calculate_risk_level. split.
  - intros Hcase.
    destruct (risk_thresholds self !! disease) as [ t | ];
      [ | eexists; split; [ reflexivity | cbn; tauto ] ].
    destruct Hcase as [Hlt | Hnone]; [ | discriminate Hnone ].
    destruct (cases_per_100k_returns cases Hlt) as [rate ->]. cbn [bind].
    eexists. split; [ reflexivity | ]. unfold risk_of_rate.
    destruct (_ || _); [ cbn; tauto | ]. destruct (_ || _); cbn; tauto.
  - intros e.
    destruct (risk_thresholds self !! disease) as [ t | ]; [ | discriminate ].
    destruct (cases_per_100k cases) as [ rate | e' ] eqn:Hrate; cbn [bind];
      [ discriminate | ].
    intros [= <-]. exact (cases_per_100k_raises cases e' Hrate).
Qed.

Lemma calculate_risk_level_raises_only_on_overflow_witness :
  (exists level : string,
     _calculate_risk_level EnhancedMOHScraper__init__ "meningitis" 8 1
     = Ok level /\
     In level ["High"; "Medium"; "Low"]) /\
  OverflowError = OverflowError.
Proof.
  split.
  - apply (proj1 (calculate_risk_level_raises_only_on_overflow
                    EnhancedMOHScraper__init__ "meningitis" 8 1)).
    left. vm_compute. reflexivity.
  - apply (proj2 (calculate_risk_level_raises_only_on_overflow
                    EnhancedMOHScraper__init__ "meningitis" (2 ^ 1041) 3)
             OverflowError).
    vm_compute. reflexivity.
Defined.

End RiskLevelMoreProperties.
